(** * NBA three-point shot collection script: a shallow embedding

    The development follows [scripts/fetch_data.py].  Python values are
    modelled as follows.

    - A [str] is a [string]; its characters are the code points below 256.
      On that range the regular-expression class [\d] and the digits read by
      [int] are exactly the characters [0] to [9].
    - An exception that leaves a function is a value of [exn]; a call that can
      raise returns an [outcome].
    - The statistics service, the clock, the console and the file system are
      outside the script.  The two service queries are functions given to the
      development; every call, sleep, print and file operation is recorded, in
      order, in a trace of [event]s. *)

From Stdlib Require Import String Ascii List ZArith QArith Bool Arith Lia.
Import ListNotations.

Local Open Scope string_scope.
Local Open Scope Z_scope.

(** ** Exceptions and outcomes *)

Inductive exn : Type :=
| ArgumentTypeError (msg : string)
| ValueError (msg : string)
| IndexError (msg : string)
| Exception (msg : string)
| SystemExit (code : Z).

Inductive outcome (A : Type) : Type :=
| Ret (a : A)
| Raise (e : exn).

Arguments Ret {A} a.
Arguments Raise {A} e.

Definition obind {A B} (o : outcome A) (k : A -> outcome B) : outcome B :=
  match o with
  | Ret a => k a
  | Raise e => Raise e
  end.

Declare Scope outcome_scope.
Delimit Scope outcome_scope with outcome.
Notation "x <- o ;; k" := (obind o (fun x => k))
  (at level 61, o at next level, right associativity) : outcome_scope.

(** ** Strings *)

Module Str.

(** The line feed character, code point 10. *)
Definition LF : ascii := "010"%char.

Definition code (c : ascii) : Z := Z.of_nat (nat_of_ascii c).

(** [\d] and the decimal digits of [int], on code points below 256. *)
Definition isdecimal (c : ascii) : bool :=
  (48 <=? code c) && (code c <=? 57).

Definition digit_value (c : ascii) : Z := code c - 48.

(** White space as [int] strips it: the ASCII white space characters, the
    four separators 28 to 31, NEL (133) and the no-break space (160). *)
Definition isspace (c : ascii) : bool :=
  let n := code c in
  ((9 <=? n) && (n <=? 13)) || ((28 <=? n) && (n <=? 32))
  || (n =? 133) || (n =? 160).

Fixpoint lstrip (s : string) : string :=
  match s with
  | String c s' => if isspace c then lstrip s' else s
  | EmptyString => EmptyString
  end.

Fixpoint rev (s : string) : string :=
  match s with
  | EmptyString => EmptyString
  | String c s' => rev s' ++ String c EmptyString
  end.

Definition rstrip (s : string) : string := rev (lstrip (rev s)).

Definition strip (s : string) : string := rstrip (lstrip s).

(** [s.split(sep)] for a separator of one character. *)
Fixpoint split (sep : ascii) (s : string) : list string :=
  match s with
  | EmptyString => [EmptyString]
  | String c s' =>
      if Ascii.eqb c sep then EmptyString :: split sep s'
      else match split sep s' with
           | h :: t => String c h :: t
           | [] => [String c EmptyString]
           end
  end.

(** [s.replace(old, new)] for [old] and [new] of one character each. *)
Fixpoint replace (old new : ascii) (s : string) : string :=
  match s with
  | EmptyString => EmptyString
  | String c s' =>
      String (if Ascii.eqb c old then new else c) (replace old new s')
  end.

(** [xs[i]] on a list. *)
Definition getitem (xs : list string) (i : nat) : outcome string :=
  match nth_error xs i with
  | Some x => Ret x
  | None => Raise (IndexError "list index out of range")
  end.

(** The digits of an [int] literal after the sign: decimal digits, with
    single underscores allowed between two digits. *)
Fixpoint int_digits (s : string) (acc : Z) (after_digit : bool) : option Z :=
  match s with
  | EmptyString => if after_digit then Some acc else None
  | String c s' =>
      if isdecimal c then int_digits s' (10 * acc + digit_value c) true
      else if Ascii.eqb c "_" && after_digit then int_digits s' acc false
      else None
  end.

(** [int(s)] in base ten. *)
Definition int (s : string) : outcome Z :=
  let t := strip s in
  let '(negative, body) :=
    match t with
    | String c r =>
        if Ascii.eqb c "-" then (true, r)
        else if Ascii.eqb c "+" then (false, r)
        else (false, t)
    | EmptyString => (false, t)
    end in
  match int_digits body 0 false with
  | Some n => Ret (if negative then - n else n)
  | None =>
      Raise (ValueError ("invalid literal for int() with base 10: '" ++ s ++ "'"))
  end.

End Str.

(** ** The fragment of [re] the script uses *)

Module Re.

Inductive atom : Type :=
| Digit                (* \d *)
| Lit (c : ascii).

Inductive node : Type :=
| Caret                (* ^ *)
| Dollar               (* $ *)
| Rep (a : atom) (n : nat).   (* a{n}; a single atom is a{1} *)

Definition atom_matches (a : atom) (c : ascii) : bool :=
  match a with
  | Digit => Str.isdecimal c
  | Lit x => Ascii.eqb c x
  end.

(** Consume exactly [n] characters that match [a]. *)
Fixpoint take (a : atom) (n : nat) (s : string) : option string :=
  match n with
  | O => Some s
  | S n' =>
      match s with
      | String c s' => if atom_matches a c then take a n' s' else None
      | EmptyString => None
      end
  end.

(** Without the MULTILINE flag, [$] matches at the end of the string and
    just before a line feed that is the last character of the string. *)
Definition at_dollar (s : string) : bool :=
  match s with
  | EmptyString => true
  | String c EmptyString => Ascii.eqb c Str.LF
  | _ => false
  end.

(** Match a sequence of nodes at the current position; [bos] tells whether
    that position is the beginning of the string. *)
Fixpoint match_here (p : list node) (bos : bool) (s : string) : bool :=
  match p with
  | [] => true
  | Caret :: p' => bos && match_here p' bos s
  | Dollar :: p' => at_dollar s && match_here p' bos s
  | Rep a n :: p' =>
      match take a n s with
      | Some rest => match_here p' (bos && Nat.eqb n 0) rest
      | None => false
      end
  end.

(** [re.match(p, s)]: a match anchored at the beginning of [s], as a
    truth value. *)
Definition re_match (p : list node) (s : string) : bool :=
  match_here p true s.

End Re.

(** ** Season Validator *)

(** [r'^\d{4}-\d{2}$'] *)
Definition pattern : list Re.node :=
  [Re.Caret; Re.Rep Re.Digit 4; Re.Rep (Re.Lit "-") 1; Re.Rep Re.Digit 2;
   Re.Dollar].

Definition validate_season_format (season : string) : outcome string :=
  if negb (Re.re_match pattern season) then
    Raise (ArgumentTypeError
             ("Invalid season format: '" ++ season
              ++ "'. Expected format: 'YYYY-YY' (e.g., '2024-25')"))
  else
    (let years := Str.split "-" season in
     y0 <- Str.getitem years 0 ;;
     start_year <- Str.int y0 ;;
     y1 <- Str.getitem years 1 ;;
     end_year_short <- Str.int y1 ;;
     let expected_end := start_year mod 100 + 1 in
     if negb (end_year_short =? expected_end) then
       Raise (ArgumentTypeError
                ("Invalid season: '" ++ season
                 ++ "'. Years must be consecutive (e.g., '2024-25', not '2024-26')"))
     else Ret season)%outcome.

(** ** Data model *)

(** A row of the roster table of the service. *)
Record RosterRow : Type := {
  PERSON_ID : Z;
  DISPLAY_FIRST_LAST : string;
  ROSTERSTATUS : Z
}.

(** [{'player_id': ..., 'player_name': ...}] *)
Record Player : Type := {
  player_id : Z;
  player_name : string
}.

(** A row of a shot chart.  The result set of the shot-chart query has the
    columns SHOT_TYPE and PLAYER_NAME among its headers; a row is the text of
    these two cells, which the script reads or writes, and the remaining
    cells by column name. *)
Record ShotRecord : Type := {
  SHOT_TYPE : string;
  PLAYER_NAME : string;
  other_columns : list (string * string)
}.

(** A shot-chart frame is the sequence of its rows; [pd.DataFrame()] is the
    frame without rows. *)
Definition DataFrame : Type := list ShotRecord.

Definition empty {A} (df : list A) : bool :=
  match df with
  | [] => true
  | _ :: _ => false
  end.

(** [df['PLAYER_NAME'] = name]: one value for every row. *)
Definition set_PLAYER_NAME (name : string) (df : DataFrame) : DataFrame :=
  map (fun r => {| SHOT_TYPE := SHOT_TYPE r;
                   PLAYER_NAME := name;
                   other_columns := other_columns r |}) df.

(** [df[df['SHOT_TYPE'] == '3PT Field Goal']] *)
Definition is_three_pointer (r : ShotRecord) : bool :=
  String.eqb (SHOT_TYPE r) "3PT Field Goal".

(** A pure path: the anchor (empty for a relative path) and the parts. *)
Record Path : Type := {
  anchor : string;
  parts : list string
}.

Definition parent (p : Path) : Path :=
  {| anchor := anchor p; parts := removelast (parts p) |}.

(** [p / name] for a [name] that is a single relative part. *)
Definition joinpath (p : Path) (name : string) : Path :=
  {| anchor := anchor p; parts := (parts p ++ [name])%list |}.

Declare Scope path_scope.
Delimit Scope path_scope with path.
Notation "p // name" := (joinpath p name) (at level 40, left associativity)
  : path_scope.

(** ** The world around the script *)

(** What a call into the service or the file system gives back: a value, or
    an exception of a subclass of [Exception] whose text is [msg]. *)
Inductive response (A : Type) : Type :=
| Returned (a : A)
| Failed (msg : string).

Arguments Returned {A} a.
Arguments Failed {A} msg.

(** The lines the script prints, one constructor per [print] call. *)
Inductive message : Type :=
| FetchingPlayerList (season : string)
| FoundActivePlayers (n : nat)
| ErrorFetchingData (name : string) (id : Z) (err : string)
| Rule
| PipelineTitle
| SeasonLine (season : string)
| FetchingShotData (n : nat)
| MayTakeAWhile
| CollectedAttempts (n : nat)
| NoThreePointAttemptsFound
| DataSavedTo (p : Path)
| FetchingSeason (season : string)
| PipelineComplete
| TotalAttempts (n : nat)
| OutputFile (p : Path)
| NoDataToSave.

Inductive event : Type :=
| CommonAllPlayers (season : string)
| ShotChartDetail (id : Z) (season : string)
| Sleep (seconds : Q)
| Stdout (m : message)
| Mkdir (dir : Path)
| ToParquet (df : DataFrame) (p : Path)
| UsageError (msg : string).

Definition is_network (e : event) : bool :=
  match e with
  | CommonAllPlayers _ | ShotChartDetail _ _ => true
  | _ => false
  end.

Definition is_file_write (e : event) : bool :=
  match e with
  | Mkdir _ | ToParquet _ _ => true
  | _ => false
  end.

Definition is_sleep (e : event) : bool :=
  match e with
  | Sleep _ => true
  | _ => false
  end.

(** A computation: the events it performed, in order, and how it ended. *)
Definition M (A : Type) : Type := (list event * outcome A)%type.

Definition ret {A} (a : A) : M A := ([], Ret a).

Definition raise {A} (e : exn) : M A := ([], Raise e).

Definition bind {A B} (m : M A) (k : A -> M B) : M B :=
  match m with
  | (t, Ret a) => let (t', r) := k a in ((t ++ t')%list, r)
  | (t, Raise e) => (t, Raise e)
  end.

Definition emit (e : event) : M unit := ([e], Ret tt).

Definition trace {A} (m : M A) : list event := fst m.
Definition result {A} (m : M A) : outcome A := snd m.

Declare Scope run_scope.
Delimit Scope run_scope with run.
Notation "x <- m ;; k" := (bind m (fun x => k))
  (at level 61, m at next level, right associativity) : run_scope.
Notation "m ;; k" := (bind m (fun _ => k))
  (at level 61, right associativity) : run_scope.

Definition print (m : message) : M unit := emit (Stdout m).

(** [time.sleep(seconds)] refuses a negative length. *)
Definition sleep (seconds : Q) : M unit :=
  if Qle_bool 0 seconds then emit (Sleep seconds)
  else raise (ValueError "sleep length must be non-negative").

(** The status the interpreter exits with. *)
Definition exit_status (r : outcome unit) : Z :=
  match r with
  | Ret _ => 0
  | Raise (SystemExit code) => code
  | Raise _ => 1
  end.

(** ** The pipeline *)

Section Pipeline.

(** [CommonAllPlayers(season=season, is_only_current_season=1)
    .get_data_frames()[0]] *)
Variable all_players_table : string -> response (list RosterRow).

(** [ShotChartDetail(team_id=0, player_id=id, season_nullable=season,
    season_type_all_star='Regular Season', context_measure_simple='FGA')
    .get_data_frames()[0]] *)
Variable shot_chart_table : Z -> string -> response DataFrame.

(** [dir.mkdir(parents=True, exist_ok=True)] and
    [df.to_parquet(p, engine='pyarrow', index=False)] *)
Variable mkdir_parents : Path -> response unit.
Variable write_parquet : DataFrame -> Path -> response unit.

(** [Path(__file__)] *)
Variable script_file : Path.

Local Open Scope run_scope.

(** A call that is not wrapped in [try]: the exception leaves the caller. *)
Definition call {A} (e : event) (r : response A) : M A :=
  emit e ;;
  match r with
  | Returned a => ret a
  | Failed msg => raise (Exception msg)
  end.

Definition get_player_list (season : string) : M (list Player) :=
  print (FetchingPlayerList season) ;;
  players_data <- call (CommonAllPlayers season) (all_players_table season) ;;
  let active_players :=
    filter (fun row => ROSTERSTATUS row =? 1) players_data in
  let player_list :=
    map (fun row => {| player_id := PERSON_ID row;
                       player_name := DISPLAY_FIRST_LAST row |})
        active_players in
  print (FoundActivePlayers (length player_list)) ;;
  ret player_list.

Definition get_player_shots (id : Z) (name season : string) : M DataFrame :=
  emit (ShotChartDetail id season) ;;
  match shot_chart_table id season with
  | Returned shots_df =>
      ret (if negb (empty shots_df) then set_PLAYER_NAME name shots_df
           else shots_df)
  | Failed e =>
      print (ErrorFetchingData name id e) ;;
      ret []
  end.

(** The [for] loop over [player_list]; [all_three_pointers] is the list the
    loop appends to.  [tqdm] hands the players over in the order of the list
    and only draws the progress bar. *)
Fixpoint for_player_in (player_list : list Player) (season : string)
    (rate_limit_seconds : Q) (all_three_pointers : list DataFrame)
    : M (list DataFrame) :=
  match player_list with
  | [] => ret all_three_pointers
  | player :: rest =>
      shots_df <- get_player_shots (player_id player) (player_name player)
                                   season ;;
      let all_three_pointers :=
        if negb (empty shots_df) then
          let three_pointers := filter is_three_pointer shots_df in
          if negb (empty three_pointers)
          then (all_three_pointers ++ [three_pointers])%list
          else all_three_pointers
        else all_three_pointers in
      sleep rate_limit_seconds ;;
      for_player_in rest season rate_limit_seconds all_three_pointers
  end.

Definition fetch_three_point_data (season : string) (rate_limit_seconds : Q)
    : M DataFrame :=
  print Rule ;;
  print PipelineTitle ;;
  print (SeasonLine season) ;;
  print Rule ;;
  player_list <- get_player_list season ;;
  print (FetchingShotData (length player_list)) ;;
  print MayTakeAWhile ;;
  all_three_pointers <- for_player_in player_list season rate_limit_seconds [] ;;
  if negb (empty all_three_pointers) then
    let combined_df := concat all_three_pointers in
    print (CollectedAttempts (length combined_df)) ;;
    ret combined_df
  else
    print NoThreePointAttemptsFound ;;
    ret [].

Definition save_to_parquet (df : DataFrame) (output_path : Path) : M unit :=
  call (Mkdir (parent output_path)) (mkdir_parents (parent output_path)) ;;
  call (ToParquet df output_path) (write_parquet df output_path) ;;
  print (DataSavedTo output_path).

(** The command line is taken as the value given to [--season], if any.
    The parser converts the value (or the default) with the validator; when
    the conversion raises [ArgumentTypeError] it prints the usage with the
    message and exits with status 2. *)
Definition parse_arguments (argv_season : option string) : M string :=
  let arg := match argv_season with
             | Some s => s
             | None => "2024-25"
             end in
  match validate_season_format arg with
  | Ret season => ret season
  | Raise (ArgumentTypeError msg) =>
      emit (UsageError ("argument --season: " ++ msg)) ;;
      raise (SystemExit 2)
  | Raise (ValueError _) =>
      emit (UsageError ("argument --season: invalid validate_season_format value: '"
                        ++ arg ++ "'")) ;;
      raise (SystemExit 2)
  | Raise e => raise e
  end.

(** The default of [rate_limit_seconds]. *)
Definition default_rate_limit_seconds : Q := 6 # 10.

Definition output_path_for (season : string) : Path :=
  let season_filename := Str.replace "-" "_" season in
  (parent (parent script_file) // "data" // "raw"
   // ("nba_3pt_" ++ season_filename ++ ".parquet"))%path.

Definition main (argv_season : option string) : M unit :=
  season <- parse_arguments argv_season ;;
  print (FetchingSeason season) ;;
  let output_path := output_path_for season in
  three_point_df <- fetch_three_point_data season default_rate_limit_seconds ;;
  if negb (empty three_point_df) then
    save_to_parquet three_point_df output_path ;;
    print Rule ;;
    print PipelineComplete ;;
    print (TotalAttempts (length three_point_df)) ;;
    print (OutputFile output_path) ;;
    print Rule
  else
    print NoDataToSave.

End Pipeline.

(** ** A small season: two rostered players and one who is not *)

Module Scenario.

Definition roster : list RosterRow :=
  [ {| PERSON_ID := 1; DISPLAY_FIRST_LAST := "A"; ROSTERSTATUS := 1 |};
    {| PERSON_ID := 2; DISPLAY_FIRST_LAST := "B"; ROSTERSTATUS := 1 |};
    {| PERSON_ID := 3; DISPLAY_FIRST_LAST := "C"; ROSTERSTATUS := 0 |} ].

Definition shot (kind name x : string) : ShotRecord :=
  {| SHOT_TYPE := kind; PLAYER_NAME := name;
     other_columns := [("LOC_X", x)] |}.

Definition all_players_table (season : string) : response (list RosterRow) :=
  Returned roster.

(** Player 1 has a three-pointer and a two-pointer; the query for player 2
    fails. *)
Definition shot_chart_table (id : Z) (season : string) : response DataFrame :=
  if id =? 1 then
    Returned [shot "3PT Field Goal" "a" "10"; shot "2PT Field Goal" "a" "20"]
  else Failed "timed out".

Definition mkdir_parents (p : Path) : response unit := Returned tt.
Definition write_parquet (df : DataFrame) (p : Path) : response unit :=
  Returned tt.

Definition script_file : Path :=
  {| anchor := "/"; parts := ["repo"; "scripts"; "fetch_data.py"] |}.

Definition main := main all_players_table shot_chart_table mkdir_parents
                        write_parquet script_file.

End Scenario.

(** ** Another season: the first player took no three-point shot *)

Module Quiet.

Definition roster : list RosterRow :=
  [ {| PERSON_ID := 1; DISPLAY_FIRST_LAST := "A"; ROSTERSTATUS := 1 |};
    {| PERSON_ID := 2; DISPLAY_FIRST_LAST := "B"; ROSTERSTATUS := 1 |} ].

Definition A : Player := {| player_id := 1; player_name := "A" |}.
Definition B : Player := {| player_id := 2; player_name := "B" |}.

Definition all_players_table (season : string) : response (list RosterRow) :=
  Returned roster.

Definition shot_chart_table (id : Z) (season : string) : response DataFrame :=
  if id =? 1 then Returned [Scenario.shot "2PT Field Goal" "a" "5"]
  else Returned [Scenario.shot "3PT Field Goal" "b" "25"].

End Quiet.

(** ** Two players with a three-point shot each, and a season off line *)

Module Busy.

Definition all_players_table := Quiet.all_players_table.

Definition shot_chart_table (id : Z) (season : string) : response DataFrame :=
  if id =? 1 then Returned [Scenario.shot "3PT Field Goal" "a" "5"]
  else Returned [Scenario.shot "3PT Field Goal" "b" "25"].

End Busy.

Module Offline.

Definition all_players_table := Scenario.all_players_table.

Definition shot_chart_table (id : Z) (season : string) : response DataFrame :=
  Failed "connection refused".

Definition main := main all_players_table shot_chart_table
                        Scenario.mkdir_parents Scenario.write_parquet
                        Scenario.script_file.

End Offline.

(** ** The season format, in the words of the specification *)

Module SeasonSpec.

(** Four digits, a hyphen, two digits. *)
Definition season_of (d1 d2 d3 d4 d5 d6 : ascii) : string :=
  String d1 (String d2 (String d3 (String d4
    (String "-" (String d5 (String d6 EmptyString)))))).

Definition digits6 (d1 d2 d3 d4 d5 d6 : ascii) : Prop :=
  Str.isdecimal d1 = true /\ Str.isdecimal d2 = true /\
  Str.isdecimal d3 = true /\ Str.isdecimal d4 = true /\
  Str.isdecimal d5 = true /\ Str.isdecimal d6 = true.

Definition is_YYYY_YY (s : string) : Prop :=
  exists d1 d2 d3 d4 d5 d6,
    digits6 d1 d2 d3 d4 d5 d6 /\ s = season_of d1 d2 d3 d4 d5 d6.

(** The integer the four-digit prefix denotes, and the two-digit suffix. *)
Definition prefix_value (d1 d2 d3 d4 : ascii) : Z :=
  1000 * Str.digit_value d1 + 100 * Str.digit_value d2
  + 10 * Str.digit_value d3 + Str.digit_value d4.

Definition suffix_value (d5 d6 : ascii) : Z :=
  10 * Str.digit_value d5 + Str.digit_value d6.

(** Rule (b): the suffix is the prefix modulo 100, plus one. *)
Definition consecutive (d1 d2 d3 d4 d5 d6 : ascii) : Prop :=
  suffix_value d5 d6 = prefix_value d1 d2 d3 d4 mod 100 + 1.

End SeasonSpec.

(** What the [$] of the pattern lets follow the two digits. *)
Definition line_end (tail : string) : Prop :=
  tail = EmptyString \/ tail = String Str.LF EmptyString.

(** ** What each player contributes *)

Section Contributions.

Variable shot_chart_table : Z -> string -> response DataFrame.

(** The frame [get_player_shots] returns for a player of the list. *)
Definition shots_of (season : string) (player : Player) : DataFrame :=
  match result (get_player_shots shot_chart_table (player_id player)
                                 (player_name player) season) with
  | Ret df => df
  | Raise _ => []
  end.

(** The rows of that frame the loop keeps. *)
Definition three_pointers_of (season : string) (player : Player) : DataFrame :=
  filter is_three_pointer (shots_of season player).

(** The events of one turn of the loop: the fetch, then the sleep. *)
Definition turn (season : string) (rate_limit_seconds : Q) (player : Player)
    : list event :=
  (trace (get_player_shots shot_chart_table (player_id player)
                           (player_name player) season)
   ++ [Sleep rate_limit_seconds])%list.

End Contributions.

(** The four lines [fetch_three_point_data] prints first. *)
Definition header (season : string) : list event :=
  [Stdout Rule; Stdout PipelineTitle; Stdout (SeasonLine season); Stdout Rule].

(** The fetches and the sleeps of a trace, in order. *)
Definition is_fetch_or_sleep (e : event) : bool :=
  match e with
  | ShotChartDetail _ _ | Sleep _ => true
  | _ => false
  end.

(** ** Seasons in which something around the script fails *)

(** The roster query fails. *)
Module RosterDown.

Definition all_players_table (season : string) : response (list RosterRow) :=
  Failed "service unavailable".

Definition main := main all_players_table Scenario.shot_chart_table
                        Scenario.mkdir_parents Scenario.write_parquet
                        Scenario.script_file.

End RosterDown.

(** The roster has rows, and none of them is flagged as rostered. *)
Module Benched.

Definition all_players_table (season : string) : response (list RosterRow) :=
  Returned
    [ {| PERSON_ID := 1; DISPLAY_FIRST_LAST := "A"; ROSTERSTATUS := 0 |};
      {| PERSON_ID := 2; DISPLAY_FIRST_LAST := "B"; ROSTERSTATUS := 2 |} ].

Definition main := main all_players_table Scenario.shot_chart_table
                        Scenario.mkdir_parents Scenario.write_parquet
                        Scenario.script_file.

End Benched.

(** The output directory cannot be created. *)
Module ReadOnly.

Definition mkdir_parents (p : Path) : response unit :=
  Failed "read-only file system".

Definition main := main Scenario.all_players_table Scenario.shot_chart_table
                        mkdir_parents Scenario.write_parquet
                        Scenario.script_file.

End ReadOnly.

(** The directory is there, and the file cannot be written. *)
Module DiskFull.

Definition write_parquet (df : DataFrame) (p : Path) : response unit :=
  Failed "no space left on device".

Definition main := main Scenario.all_players_table Scenario.shot_chart_table
                        Scenario.mkdir_parents write_parquet
                        Scenario.script_file.

End DiskFull.

(** ** More views of a trace *)

Definition is_to_parquet (e : event) : bool :=
  match e with
  | ToParquet _ _ => true
  | _ => false
  end.

(** The warning [get_player_shots] prints in its [except] branch. *)
Definition is_warning (e : event) : bool :=
  match e with
  | Stdout (ErrorFetchingData _ _ _) => true
  | _ => false
  end.

(** The events of [save_to_parquet] and of the report of [main], once the
    directory is made and the file written. *)
Definition saved (df : DataFrame) (p : Path) : list event :=
  [Mkdir (parent p); ToParquet df p; Stdout (DataSavedTo p); Stdout Rule;
   Stdout PipelineComplete; Stdout (TotalAttempts (length df));
   Stdout (OutputFile p); Stdout Rule].

(** * Properties *)

(** ** Characters *)

Lemma isdecimal_facts (c : ascii) :
  Str.isdecimal c = true ->
  Ascii.eqb c "-" = false /\ Ascii.eqb c "+" = false /\
  Ascii.eqb c "_" = false /\ Str.isspace c = false /\
  0 <= Str.digit_value c <= 9.
Proof.
  destruct c as [[] [] [] [] [] [] [] []]; cbv; intros H;
    try discriminate H;
    repeat split; try reflexivity; intros K; discriminate K.
Qed.

Ltac digit_facts H :=
  let E1 := fresh "Ehy" in
  let E2 := fresh "Epl" in
  let E3 := fresh "Eus" in
  let E4 := fresh "Esp" in
  let E5 := fresh "Erg" in
  destruct (isdecimal_facts _ H) as (E1 & E2 & E3 & E4 & E5).

(** ** The pattern *)

Lemma re_match_pattern_intro d1 d2 d3 d4 d5 d6 tail :
  SeasonSpec.digits6 d1 d2 d3 d4 d5 d6 -> line_end tail ->
  Re.re_match pattern (SeasonSpec.season_of d1 d2 d3 d4 d5 d6 ++ tail) = true.
Proof.
  intros (H1 & H2 & H3 & H4 & H5 & H6) Ht.
  unfold Re.re_match, pattern; simpl.
  rewrite H1, H2, H3, H4; simpl.
  rewrite H5, H6; simpl.
  destruct Ht as [-> | ->]; reflexivity.
Qed.

Lemma re_match_pattern_elim (s : string) :
  Re.re_match pattern s = true ->
  exists d1 d2 d3 d4 d5 d6 tail,
    SeasonSpec.digits6 d1 d2 d3 d4 d5 d6 /\ line_end tail /\
    s = SeasonSpec.season_of d1 d2 d3 d4 d5 d6 ++ tail.
Proof.
  unfold Re.re_match, pattern; simpl.
  destruct s as [|d1 s]; [discriminate|].
  destruct (Str.isdecimal d1) eqn:H1; [|discriminate].
  destruct s as [|d2 s]; [discriminate|].
  destruct (Str.isdecimal d2) eqn:H2; [|discriminate].
  destruct s as [|d3 s]; [discriminate|].
  destruct (Str.isdecimal d3) eqn:H3; [|discriminate].
  destruct s as [|d4 s]; [discriminate|].
  destruct (Str.isdecimal d4) eqn:H4; [|discriminate].
  destruct s as [|h s]; [discriminate|].
  destruct (Ascii.eqb h "-") eqn:Hh; [|discriminate].
  apply Ascii.eqb_eq in Hh; subst h. simpl.
  destruct s as [|d5 s]; [discriminate|].
  destruct (Str.isdecimal d5) eqn:H5; [|discriminate].
  destruct s as [|d6 s]; [discriminate|].
  destruct (Str.isdecimal d6) eqn:H6; [|discriminate].
  intros Hd. exists d1, d2, d3, d4, d5, d6, s.
  split; [repeat split; assumption|]. split; [|reflexivity].
  rewrite andb_true_r in Hd.
  destruct s as [|c [|c' s]]; simpl in Hd; try discriminate.
  - left; reflexivity.
  - right. apply Ascii.eqb_eq in Hd. subst c. reflexivity.
Qed.

(** ** Splitting and reading the two years *)

Lemma split_season d1 d2 d3 d4 d5 d6 tail :
  SeasonSpec.digits6 d1 d2 d3 d4 d5 d6 -> line_end tail ->
  Str.split "-" (SeasonSpec.season_of d1 d2 d3 d4 d5 d6 ++ tail)
  = [String d1 (String d2 (String d3 (String d4 EmptyString)));
     String d5 (String d6 tail)].
Proof.
  intros (H1 & H2 & H3 & H4 & H5 & H6) Ht.
  digit_facts H1. digit_facts H2. digit_facts H3. digit_facts H4.
  digit_facts H5. digit_facts H6.
  simpl. rewrite Ehy, Ehy0, Ehy1, Ehy2, Ehy3, Ehy4.
  destruct Ht as [-> | ->]; reflexivity.
Qed.

Lemma int_digits_digit c s acc b :
  Str.isdecimal c = true ->
  Str.int_digits (String c s) acc b
  = Str.int_digits s (10 * acc + Str.digit_value c) true.
Proof. intros H. cbn [Str.int_digits]. rewrite H. reflexivity. Qed.

Lemma strip_prefix d1 d2 d3 d4 :
  Str.isspace d1 = false -> Str.isspace d4 = false ->
  Str.strip (String d1 (String d2 (String d3 (String d4 EmptyString))))
  = String d1 (String d2 (String d3 (String d4 EmptyString))).
Proof.
  intros E1 E4. unfold Str.strip, Str.rstrip. simpl.
  rewrite E1. simpl. rewrite E4. reflexivity.
Qed.

Lemma strip_suffix d5 d6 tail :
  Str.isspace d5 = false -> Str.isspace d6 = false -> line_end tail ->
  Str.strip (String d5 (String d6 tail)) = String d5 (String d6 EmptyString).
Proof.
  intros E5 E6 Ht. unfold Str.strip, Str.rstrip.
  destruct Ht as [-> | ->]; simpl; rewrite E5; simpl; rewrite E6; reflexivity.
Qed.

Lemma int_prefix d1 d2 d3 d4 :
  Str.isdecimal d1 = true -> Str.isdecimal d2 = true ->
  Str.isdecimal d3 = true -> Str.isdecimal d4 = true ->
  Str.int (String d1 (String d2 (String d3 (String d4 EmptyString))))
  = Ret (SeasonSpec.prefix_value d1 d2 d3 d4).
Proof.
  intros H1 H2 H3 H4.
  digit_facts H1. digit_facts H4.
  unfold Str.int. rewrite strip_prefix by assumption.
  rewrite Ehy, Epl. cbv beta iota.
  rewrite !int_digits_digit by assumption. cbn [Str.int_digits].
  unfold SeasonSpec.prefix_value. apply f_equal. lia.
Qed.

Lemma int_suffix d5 d6 tail :
  Str.isdecimal d5 = true -> Str.isdecimal d6 = true -> line_end tail ->
  Str.int (String d5 (String d6 tail)) = Ret (SeasonSpec.suffix_value d5 d6).
Proof.
  intros H5 H6 Ht.
  digit_facts H5. digit_facts H6.
  unfold Str.int. rewrite strip_suffix by assumption.
  rewrite Ehy, Epl. cbv beta iota.
  rewrite !int_digits_digit by assumption. cbn [Str.int_digits].
  unfold SeasonSpec.suffix_value. apply f_equal. lia.
Qed.

(** What the validator does on every string the pattern lets through. *)
Lemma validate_season_format_matched d1 d2 d3 d4 d5 d6 tail :
  SeasonSpec.digits6 d1 d2 d3 d4 d5 d6 -> line_end tail ->
  let season := SeasonSpec.season_of d1 d2 d3 d4 d5 d6 ++ tail in
  validate_season_format season
  = if SeasonSpec.suffix_value d5 d6
       =? SeasonSpec.prefix_value d1 d2 d3 d4 mod 100 + 1
    then Ret season
    else Raise (ArgumentTypeError
                  ("Invalid season: '" ++ season
                   ++ "'. Years must be consecutive (e.g., '2024-25', not '2024-26')")).
Proof.
  intros Hd Ht season. unfold validate_season_format.
  subst season.
  rewrite (re_match_pattern_intro _ _ _ _ _ _ _ Hd Ht).
  rewrite (split_season _ _ _ _ _ _ _ Hd Ht).
  destruct Hd as (H1 & H2 & H3 & H4 & H5 & H6).
  cbn [negb Str.getitem nth_error obind].
  rewrite (int_prefix _ _ _ _ H1 H2 H3 H4).
  cbn [obind].
  rewrite (int_suffix _ _ _ H5 H6 Ht).
  cbn [obind].
  destruct (_ =? _); reflexivity.
Qed.

(** ** Season Validator *)

(** The validator either returns its argument or raises
    [ArgumentTypeError]; no other exception leaves it. *)
Lemma validate_season_format_total (season : string) :
  validate_season_format season = Ret season \/
  exists msg, validate_season_format season = Raise (ArgumentTypeError msg).
Proof.
  destruct (Re.re_match pattern season) eqn:Hm.
  - destruct (re_match_pattern_elim _ Hm)
      as (d1 & d2 & d3 & d4 & d5 & d6 & tail & Hd & Ht & ->).
    rewrite (validate_season_format_matched _ _ _ _ _ _ _ Hd Ht).
    destruct (_ =? _); [left; reflexivity | right; eexists; reflexivity].
  - right. unfold validate_season_format. rewrite Hm. eexists; reflexivity.
Qed.

(** The strings the validator returns: four digits, a hyphen, two digits
    whose value is the prefix modulo 100 plus one, and then the end of the
    string or one line feed. *)
Lemma validate_season_format_accepts (season : string) :
  validate_season_format season = Ret season <->
  exists d1 d2 d3 d4 d5 d6 tail,
    SeasonSpec.digits6 d1 d2 d3 d4 d5 d6 /\ line_end tail /\
    season = SeasonSpec.season_of d1 d2 d3 d4 d5 d6 ++ tail /\
    SeasonSpec.consecutive d1 d2 d3 d4 d5 d6.
Proof.
  split.
  - intros Hv. destruct (Re.re_match pattern season) eqn:Hm.
    + destruct (re_match_pattern_elim _ Hm)
        as (d1 & d2 & d3 & d4 & d5 & d6 & tail & Hd & Ht & ->).
      exists d1, d2, d3, d4, d5, d6, tail.
      split; [exact Hd|]. split; [exact Ht|]. split; [reflexivity|].
      rewrite (validate_season_format_matched _ _ _ _ _ _ _ Hd Ht) in Hv.
      unfold SeasonSpec.consecutive.
      destruct (_ =? _) eqn:He in Hv; [|discriminate].
      apply Z.eqb_eq in He. exact He.
    + unfold validate_season_format in Hv. rewrite Hm in Hv. discriminate.
  - intros (d1 & d2 & d3 & d4 & d5 & d6 & tail & Hd & Ht & -> & Hc).
    rewrite (validate_season_format_matched _ _ _ _ _ _ _ Hd Ht).
    unfold SeasonSpec.consecutive in Hc. rewrite Hc, Z.eqb_refl. reflexivity.
Qed.

(** On a string of four digits, a hyphen and two digits the validator
    returns the string exactly when the suffix is the prefix modulo 100 plus
    one, and raises [ArgumentTypeError] otherwise. *)
Lemma validate_season_format_YYYY_YY d1 d2 d3 d4 d5 d6 :
  SeasonSpec.digits6 d1 d2 d3 d4 d5 d6 ->
  let season := SeasonSpec.season_of d1 d2 d3 d4 d5 d6 in
  (validate_season_format season = Ret season <->
   SeasonSpec.consecutive d1 d2 d3 d4 d5 d6) /\
  (~ SeasonSpec.consecutive d1 d2 d3 d4 d5 d6 ->
   exists msg, validate_season_format season = Raise (ArgumentTypeError msg)).
Proof.
  intros Hd season.
  assert (Hv := validate_season_format_matched d1 d2 d3 d4 d5 d6 EmptyString
                  Hd (or_introl eq_refl)).
  change (SeasonSpec.season_of d1 d2 d3 d4 d5 d6 ++ EmptyString) with season in Hv.
  cbv zeta in Hv. unfold SeasonSpec.consecutive.
  destruct (_ =? _) eqn:He in Hv.
  - apply Z.eqb_eq in He. split; [tauto | intros Hn; contradiction].
  - apply Z.eqb_neq in He. split.
    + split; [rewrite Hv; discriminate | intros Hc; contradiction].
    + intros _. eexists. exact Hv.
Qed.

(** A string outside the pattern, and not a string of the pattern followed by
    one line feed, is rejected. *)
Lemma validate_season_format_rejects (season : string) :
  ~ SeasonSpec.is_YYYY_YY season ->
  (forall s, SeasonSpec.is_YYYY_YY s -> season <> s ++ String Str.LF EmptyString) ->
  exists msg, validate_season_format season = Raise (ArgumentTypeError msg).
Proof.
  intros Hn Hl.
  destruct (validate_season_format_total season) as [Hv | Hv]; [|exact Hv].
  exfalso. apply validate_season_format_accepts in Hv.
  destruct Hv as (d1 & d2 & d3 & d4 & d5 & d6 & tail & Hd & [-> | ->] & -> & _).
  - apply Hn. exists d1, d2, d3, d4, d5, d6. split; [exact Hd | reflexivity].
  - apply (Hl (SeasonSpec.season_of d1 d2 d3 d4 d5 d6)); [|reflexivity].
    exists d1, d2, d3, d4, d5, d6. split; [exact Hd | reflexivity].
Qed.

(** C1.  The validator is to reject every string that is not four digits, a
    hyphen and two digits.  The string 2024-25 followed by a line feed is not
    of that form (it has eight characters), and the validator returns it:
    the [$] of the pattern also matches before a final line feed. *)
Theorem validate_season_format_trailing_line_feed :
  let season := "2024-25" ++ String Str.LF EmptyString in
  String.length season = 8%nat /\
  ~ SeasonSpec.is_YYYY_YY season /\
  validate_season_format season = Ret season.
Proof.
  cbv zeta. split; [reflexivity|]. split; [|reflexivity].
  intros (d1 & d2 & d3 & d4 & d5 & d6 & _ & H).
  apply (f_equal String.length) in H. discriminate H.
Qed.

(** C2.  The season 2099-00 names the consecutive years 2099 and 2100, and
    the validator rejects it as not consecutive: the expected suffix is
    computed as 99 + 1 = 100 and is not reduced modulo 100. *)
Theorem validate_season_format_2099_00 :
  SeasonSpec.is_YYYY_YY "2099-00" /\
  validate_season_format "2099-00"
  = Raise (ArgumentTypeError
             "Invalid season: '2099-00'. Years must be consecutive (e.g., '2024-25', not '2024-26')").
Proof.
  split; [|reflexivity].
  exists "2"%char, "0"%char, "9"%char, "9"%char, "0"%char, "0"%char.
  split; [repeat split|reflexivity].
Qed.

(** No two-digit suffix is accepted after a year that ends in 99. *)
Lemma validate_season_format_century d1 d2 d3 d4 d5 d6 :
  SeasonSpec.digits6 d1 d2 d3 d4 d5 d6 ->
  SeasonSpec.prefix_value d1 d2 d3 d4 mod 100 = 99 ->
  exists msg,
    validate_season_format (SeasonSpec.season_of d1 d2 d3 d4 d5 d6)
    = Raise (ArgumentTypeError msg).
Proof.
  intros Hd H99.
  apply (validate_season_format_YYYY_YY _ _ _ _ _ _ Hd).
  unfold SeasonSpec.consecutive, SeasonSpec.suffix_value. rewrite H99.
  destruct Hd as (_ & _ & _ & _ & H5 & H6).
  digit_facts H5. digit_facts H6. lia.
Qed.

(** ** Runs *)

Lemma bind_Ret {A B} (t : list event) (a : A) (k : A -> M B) :
  bind (t, Ret a) k = ((t ++ trace (k a))%list, result (k a)).
Proof. unfold bind, trace, result. destruct (k a); reflexivity. Qed.

Lemma bind_Raise {A B} (t : list event) (e : exn) (k : A -> M B) :
  bind (t, Raise e) k = (t, Raise e).
Proof. reflexivity. Qed.

Lemma run_eta {A} (m : M A) : m = (trace m, result m).
Proof. destruct m; reflexivity. Qed.

Lemma sleep_nonneg (seconds : Q) :
  (0 <= seconds)%Q -> sleep seconds = ([Sleep seconds], Ret tt).
Proof.
  intros H. unfold sleep. apply Qle_bool_iff in H. rewrite H. reflexivity.
Qed.

Lemma concat_nonempty {A} (l : list (list A)) :
  concat (filter (fun g => negb (empty g)) l) = concat l.
Proof.
  induction l as [|[|x g] l IH]; simpl; [reflexivity | exact IH |].
  rewrite IH. reflexivity.
Qed.

Section PipelineFacts.

Variable all_players_table : string -> response (list RosterRow).
Variable shot_chart_table : Z -> string -> response DataFrame.
Variable mkdir_parents : Path -> response unit.
Variable write_parquet : DataFrame -> Path -> response unit.
Variable script_file : Path.

(** *** Shot Fetcher *)

Lemma get_player_shots_run (id : Z) (name season : string) :
  get_player_shots shot_chart_table id name season
  = match shot_chart_table id season with
    | Returned shots_df =>
        ([ShotChartDetail id season], Ret (set_PLAYER_NAME name shots_df))
    | Failed e =>
        ([ShotChartDetail id season; Stdout (ErrorFetchingData name id e)],
         Ret [])
    end.
Proof.
  unfold get_player_shots.
  destruct (shot_chart_table id season) as [[|r df]|e]; reflexivity.
Qed.

Lemma get_player_shots_returns (id : Z) (name season : string) :
  exists df, result (get_player_shots shot_chart_table id name season) = Ret df.
Proof.
  rewrite get_player_shots_run.
  destruct (shot_chart_table id season); eexists; reflexivity.
Qed.

Lemma get_player_shots_eq (season : string) (player : Player) :
  get_player_shots shot_chart_table (player_id player) (player_name player)
                   season
  = (trace (get_player_shots shot_chart_table (player_id player)
                             (player_name player) season),
     Ret (shots_of shot_chart_table season player)).
Proof.
  unfold shots_of.
  destruct (get_player_shots_returns (player_id player) (player_name player)
                                     season) as [df Hdf].
  rewrite Hdf. rewrite <- Hdf. apply run_eta.
Qed.

(** *** The loop *)

Lemma for_player_in_run (season : string) (rate : Q) :
  (0 <= rate)%Q ->
  forall (player_list : list Player) (acc : list DataFrame),
    for_player_in shot_chart_table player_list season rate acc
    = (flat_map (turn shot_chart_table season rate) player_list,
       Ret (acc ++ filter (fun g => negb (empty g))
                          (map (three_pointers_of shot_chart_table season)
                               player_list))%list).
Proof.
  intros Hrate player_list.
  induction player_list as [|player rest IH]; intros acc.
  - simpl. rewrite app_nil_r. reflexivity.
  - cbn [for_player_in]. rewrite get_player_shots_eq, bind_Ret.
    rewrite (sleep_nonneg _ Hrate), bind_Ret. rewrite IH.
    cbn [trace result fst snd flat_map map filter].
    unfold turn at 2. rewrite <- !app_assoc. cbn [app].
    f_equal. f_equal. unfold three_pointers_of.
    destruct (shots_of shot_chart_table season player) as [|r df].
    + reflexivity.
    + cbn [empty negb].
      destruct (filter is_three_pointer (r :: df)) as [|r' df'].
      * reflexivity.
      * cbn [empty negb]. rewrite <- app_assoc. reflexivity.
Qed.

(** *** Player Enumerator *)

Lemma get_player_list_run (season : string) :
  get_player_list all_players_table season
  = match all_players_table season with
    | Returned players_data =>
        let player_list :=
          map (fun row => {| player_id := PERSON_ID row;
                             player_name := DISPLAY_FIRST_LAST row |})
              (filter (fun row => ROSTERSTATUS row =? 1) players_data) in
        ([Stdout (FetchingPlayerList season); CommonAllPlayers season;
          Stdout (FoundActivePlayers (length player_list))],
         Ret player_list)
    | Failed msg =>
        ([Stdout (FetchingPlayerList season); CommonAllPlayers season],
         Raise (Exception msg))
    end.
Proof.
  unfold get_player_list, call.
  destruct (all_players_table season); reflexivity.
Qed.

(** *** Filter and Aggregator *)

Lemma fetch_three_point_data_run (season : string) (rate : Q)
    (player_list : list Player) :
  (0 <= rate)%Q ->
  result (get_player_list all_players_table season) = Ret player_list ->
  let table := flat_map (three_pointers_of shot_chart_table season)
                        player_list in
  fetch_three_point_data all_players_table shot_chart_table season rate
  = ((header season
      ++ trace (get_player_list all_players_table season)
      ++ [Stdout (FetchingShotData (length player_list)); Stdout MayTakeAWhile]
      ++ flat_map (turn shot_chart_table season rate) player_list
      ++ [Stdout (if empty table then NoThreePointAttemptsFound
                 else CollectedAttempts (length table))])%list,
     Ret table).
Proof.
  intros Hrate Hlist table. unfold fetch_three_point_data, print, emit.
  rewrite !bind_Ret.
  rewrite (run_eta (get_player_list all_players_table season)), Hlist.
  rewrite !bind_Ret. rewrite (for_player_in_run _ _ Hrate), bind_Ret.
  cbn [trace result fst snd app].
  assert (Hc : concat (filter (fun g => negb (empty g))
                 (map (three_pointers_of shot_chart_table season) player_list))
               = table).
  { rewrite concat_nonempty. symmetry. apply flat_map_concat_map. }
  destruct (filter _ _) as [|g gs] eqn:Hg.
  - cbn [empty negb trace result fst snd concat] in *. rewrite <- Hc.
    unfold header. reflexivity.
  - cbn [empty negb]. rewrite bind_Ret. cbn [trace result fst snd].
    rewrite Hc. unfold header, ret. cbn [app trace result fst snd].
    destruct table as [|r table'] eqn:Ht.
    + exfalso. assert (Hin : In g (g :: gs)) by (left; reflexivity).
      rewrite <- Hg in Hin. apply filter_In in Hin. destruct Hin as [_ Hne].
      destruct g; [discriminate Hne|]. discriminate Hc.
    + reflexivity.
Qed.

End PipelineFacts.

(** ** Claims about the Shot Fetcher, the Filter and the Aggregator *)

Section Aggregate.

Variable all_players_table : string -> response (list RosterRow).
Variable shot_chart_table : Z -> string -> response DataFrame.

Lemma shots_of_eq (season : string) (player : Player) :
  shots_of shot_chart_table season player
  = match shot_chart_table (player_id player) season with
    | Returned shots_df => set_PLAYER_NAME (player_name player) shots_df
    | Failed _ => []
    end.
Proof.
  unfold shots_of. rewrite get_player_shots_run.
  destruct (shot_chart_table (player_id player) season); reflexivity.
Qed.

Lemma set_PLAYER_NAME_In (name : string) (df : DataFrame) (r : ShotRecord) :
  In r (set_PLAYER_NAME name df) -> PLAYER_NAME r = name.
Proof.
  unfold set_PLAYER_NAME. intros H. apply in_map_iff in H.
  destruct H as (r0 & <- & _). reflexivity.
Qed.

Lemma shots_of_name (season : string) (player : Player) (r : ShotRecord) :
  In r (shots_of shot_chart_table season player) ->
  PLAYER_NAME r = player_name player.
Proof.
  rewrite shots_of_eq.
  destruct (shot_chart_table (player_id player) season) as [df|e].
  - apply set_PLAYER_NAME_In.
  - intros [].
Qed.

Lemma fetch_three_point_data_result (season : string) (rate : Q)
    (player_list : list Player) :
  (0 <= rate)%Q ->
  result (get_player_list all_players_table season) = Ret player_list ->
  result (fetch_three_point_data all_players_table shot_chart_table season rate)
  = Ret (flat_map (three_pointers_of shot_chart_table season) player_list).
Proof.
  intros Hrate Hlist.
  rewrite (fetch_three_point_data_run _ _ _ _ _ Hrate Hlist). reflexivity.
Qed.

(** C3.  When the query for a player fails, [get_player_shots] returns the
    empty frame, and the aggregated table of the run is the one made of the
    rows of the other players of the list, in their order. *)
Theorem fetch_failure_is_isolated (season : string) (rate : Q)
    (id : Z) (name msg : string) (before after : list Player) :
  (0 <= rate)%Q ->
  shot_chart_table id season = Failed msg ->
  result (get_player_list all_players_table season)
  = Ret (before ++ {| player_id := id; player_name := name |} :: after)%list ->
  result (get_player_shots shot_chart_table id name season) = Ret [] /\
  result (fetch_three_point_data all_players_table shot_chart_table season rate)
  = Ret (flat_map (three_pointers_of shot_chart_table season)
                  (before ++ after)%list).
Proof.
  intros Hrate Hfail Hlist. split.
  - rewrite get_player_shots_run, Hfail. reflexivity.
  - rewrite (fetch_three_point_data_result _ _ _ Hrate Hlist).
    rewrite !flat_map_app. cbn [flat_map].
    unfold three_pointers_of at 2. rewrite shots_of_eq.
    cbn [player_id player_name]. rewrite Hfail. reflexivity.
Qed.

(** C4.  A row is in the aggregated table exactly when it is a row of the
    frame fetched for some player of the list and its shot type is the
    string 3PT Field Goal; a row whose shot type is another string, such
    as 2PT Field Goal, the marker in lower case or a part of it, is not in
    the table. *)
Theorem aggregate_keeps_exact_marker (season : string) (rate : Q)
    (player_list : list Player) :
  (0 <= rate)%Q ->
  result (get_player_list all_players_table season) = Ret player_list ->
  exists table,
    result (fetch_three_point_data all_players_table shot_chart_table
                                   season rate) = Ret table /\
    (forall r,
       In r table <->
       (exists player, In player player_list /\
                       In r (shots_of shot_chart_table season player)) /\
       SHOT_TYPE r = "3PT Field Goal") /\
    (forall r, In r table ->
       SHOT_TYPE r <> "2PT Field Goal" /\ SHOT_TYPE r <> "3pt field goal" /\
       SHOT_TYPE r <> "3PT" /\ SHOT_TYPE r <> "3PT Field Goal Attempt").
Proof.
  intros Hrate Hlist. eexists. split.
  - apply (fetch_three_point_data_result _ _ _ Hrate Hlist).
  - assert (Hiff : forall r,
      In r (flat_map (three_pointers_of shot_chart_table season) player_list)
      <-> (exists player, In player player_list /\
                          In r (shots_of shot_chart_table season player)) /\
          SHOT_TYPE r = "3PT Field Goal").
    { intros r. rewrite in_flat_map. unfold three_pointers_of. split.
      - intros (player & Hp & Hr). apply filter_In in Hr.
        destruct Hr as [Hr Ht]. split; [exists player; tauto|].
        apply String.eqb_eq. exact Ht.
      - intros ((player & Hp & Hr) & Ht). exists player. split; [exact Hp|].
        apply filter_In. split; [exact Hr|]. apply String.eqb_eq. exact Ht. }
    split; [exact Hiff|].
    intros r Hr. apply Hiff in Hr. destruct Hr as [_ Ht]. rewrite Ht.
    repeat split; discriminate.
Qed.

(** C5, amended.  The aggregated table is the concatenation, in the order of
    the player list, of the rows kept for each player, themselves in the
    order of the fetched frame.  When the list has two players with
    different names, each with at least one row kept, the concatenation in
    the reverse order is not the aggregated table. *)
Theorem aggregate_row_order (season : string) (rate : Q)
    (player_list : list Player) :
  (0 <= rate)%Q ->
  result (get_player_list all_players_table season) = Ret player_list ->
  result (fetch_three_point_data all_players_table shot_chart_table season rate)
  = Ret (flat_map (three_pointers_of shot_chart_table season) player_list) /\
  (forall a b,
     player_list = [a; b] ->
     player_name a <> player_name b ->
     three_pointers_of shot_chart_table season a <> [] ->
     three_pointers_of shot_chart_table season b <> [] ->
     result (fetch_three_point_data all_players_table shot_chart_table
                                    season rate)
     <> Ret (three_pointers_of shot_chart_table season b
             ++ three_pointers_of shot_chart_table season a)%list).
Proof.
  intros Hrate Hlist.
  assert (Hres := fetch_three_point_data_result _ _ _ Hrate Hlist).
  split; [exact Hres|].
  intros a b -> Hname Ha Hb. rewrite Hres. cbn [flat_map].
  rewrite app_nil_r. intros Heq. injection Heq as Heq.
  assert (Hna : forall r, In r (three_pointers_of shot_chart_table season a)
                          -> PLAYER_NAME r = player_name a).
  { intros r Hr. apply filter_In in Hr. apply (shots_of_name season a r), Hr. }
  assert (Hnb : forall r, In r (three_pointers_of shot_chart_table season b)
                          -> PLAYER_NAME r = player_name b).
  { intros r Hr. apply filter_In in Hr. apply (shots_of_name season b r), Hr. }
  destruct (three_pointers_of shot_chart_table season a) as [|ra ta];
    [contradiction|].
  destruct (three_pointers_of shot_chart_table season b) as [|rb tb];
    [contradiction|].
  injection Heq as Hhead _. apply Hname.
  rewrite <- (Hna ra (or_introl eq_refl)), <- (Hnb rb (or_introl eq_refl)).
  rewrite Hhead. reflexivity.
Qed.

(** C10.  The frame [get_player_shots] returns is the frame of the service
    with the supplied name written in the PLAYER_NAME cell of every row,
    whatever that cell held; so every row of the aggregated table is a row
    fetched for a player of the list and carries that player's name. *)
Theorem rows_carry_the_supplied_name (season : string) (rate : Q)
    (player_list : list Player) :
  (0 <= rate)%Q ->
  result (get_player_list all_players_table season) = Ret player_list ->
  (forall id name shots_df,
     shot_chart_table id season = Returned shots_df ->
     result (get_player_shots shot_chart_table id name season)
     = Ret (set_PLAYER_NAME name shots_df) /\
     length (set_PLAYER_NAME name shots_df) = length shots_df /\
     forall r, In r (set_PLAYER_NAME name shots_df) -> PLAYER_NAME r = name) /\
  exists table,
    result (fetch_three_point_data all_players_table shot_chart_table
                                   season rate) = Ret table /\
    forall r, In r table ->
      exists player, In player player_list /\
                     In r (shots_of shot_chart_table season player) /\
                     PLAYER_NAME r = player_name player.
Proof.
  intros Hrate Hlist. split.
  - intros id name shots_df Hret. split; [|split].
    + rewrite get_player_shots_run, Hret. reflexivity.
    + apply length_map.
    + apply set_PLAYER_NAME_In.
  - eexists. split.
    + apply (fetch_three_point_data_result _ _ _ Hrate Hlist).
    + intros r Hr. apply in_flat_map in Hr. destruct Hr as (player & Hp & Hr).
      apply filter_In in Hr. destruct Hr as [Hr _].
      exists player. split; [exact Hp|]. split; [exact Hr|].
      apply (shots_of_name season player r Hr).
Qed.

End Aggregate.

(** ** Claims about the Pipeline Driver *)

Lemma filter_flat_map {A B} (f : B -> bool) (g : A -> list B) (l : list A) :
  filter f (flat_map g l) = flat_map (fun x => filter f (g x)) l.
Proof.
  induction l as [|x l IH]; [reflexivity|].
  cbn [flat_map]. rewrite filter_app, IH. reflexivity.
Qed.

Lemma flat_map_nil {A B} (l : list A) :
  flat_map (fun _ : A => @nil B) l = [].
Proof. induction l as [|x l IH]; [reflexivity | exact IH]. Qed.

Lemma length_flat_map_singleton {A B} (g : A -> B) (l : list A) :
  length (flat_map (fun x => [g x]) l) = length l.
Proof. induction l as [|x l IH]; [reflexivity | simpl; rewrite IH; reflexivity]. Qed.

Lemma default_rate_limit_seconds_nonneg : (0 <= default_rate_limit_seconds)%Q.
Proof. unfold default_rate_limit_seconds, Qle. simpl. lia. Qed.

(** How [parse_arguments] ends: with the validated season and no output, or
    with the usage message and exit status 2. *)
Lemma parse_arguments_cases (argv_season : option string) :
  let arg := match argv_season with Some s => s | None => "2024-25" end in
  (validate_season_format arg = Ret arg /\
   parse_arguments argv_season = ([], Ret arg)) \/
  (exists msg,
     validate_season_format arg = Raise (ArgumentTypeError msg) /\
     parse_arguments argv_season
     = ([UsageError ("argument --season: " ++ msg)], Raise (SystemExit 2))).
Proof.
  intros arg. unfold parse_arguments. fold arg.
  destruct (validate_season_format_total arg) as [Hv | [msg Hv]]; rewrite Hv.
  - left. split; reflexivity.
  - right. exists msg. split; reflexivity.
Qed.

Section Driver.

Variable all_players_table : string -> response (list RosterRow).
Variable shot_chart_table : Z -> string -> response DataFrame.
Variable mkdir_parents : Path -> response unit.
Variable write_parquet : DataFrame -> Path -> response unit.
Variable script_file : Path.

Lemma turn_eq (season : string) (rate : Q) (player : Player) :
  turn shot_chart_table season rate player
  = (ShotChartDetail (player_id player) season
     :: match shot_chart_table (player_id player) season with
        | Returned _ => []
        | Failed e =>
            [Stdout (ErrorFetchingData (player_name player) (player_id player) e)]
        end ++ [Sleep rate])%list.
Proof.
  unfold turn. rewrite get_player_shots_run.
  destruct (shot_chart_table (player_id player) season); reflexivity.
Qed.

Lemma get_player_list_trace (season : string) (player_list : list Player) :
  result (get_player_list all_players_table season) = Ret player_list ->
  trace (get_player_list all_players_table season)
  = [Stdout (FetchingPlayerList season); CommonAllPlayers season;
     Stdout (FoundActivePlayers (length player_list))].
Proof.
  rewrite get_player_list_run.
  destruct (all_players_table season); cbn [result trace fst snd].
  - intros H. injection H as <-. reflexivity.
  - discriminate.
Qed.

Lemma fetch_three_point_data_fail (season : string) (rate : Q) (e : exn) :
  result (get_player_list all_players_table season) = Raise e ->
  fetch_three_point_data all_players_table shot_chart_table season rate
  = ((header season
      ++ [Stdout (FetchingPlayerList season); CommonAllPlayers season])%list,
     Raise e).
Proof.
  unfold fetch_three_point_data, print, emit. rewrite !bind_Ret.
  rewrite get_player_list_run.
  destruct (all_players_table season); cbn [result trace fst snd].
  - discriminate.
  - intros H. injection H as <-. reflexivity.
Qed.

Lemma fetch_three_point_data_no_file_write (season : string) (rate : Q) :
  (0 <= rate)%Q ->
  filter is_file_write
    (trace (fetch_three_point_data all_players_table shot_chart_table
                                   season rate)) = [].
Proof.
  intros Hrate.
  destruct (result (get_player_list all_players_table season))
    as [player_list|e] eqn:Hlist.
  - rewrite (fetch_three_point_data_run _ _ _ _ _ Hrate Hlist).
    cbn [trace fst]. rewrite (get_player_list_trace _ _ Hlist).
    rewrite !filter_app, filter_flat_map. cbn [header filter is_file_write app].
    rewrite (flat_map_ext _ (fun _ => [])), flat_map_nil; [reflexivity|].
    intros player. rewrite turn_eq.
    destruct (shot_chart_table (player_id player) season); reflexivity.
  - rewrite (fetch_three_point_data_fail _ _ _ Hlist). reflexivity.
Qed.

(** C8.  Between the first and the last line of the run, the fetches and the
    sleeps alternate: for each player of the list, in order, one fetch and
    then one sleep of [rate_limit_seconds], whether the fetch failed or
    returned no row that is kept; so there are as many sleeps as players.
    The default of the parameter is 0.6. *)
Theorem sleep_after_every_fetch (season : string) (rate : Q)
    (player_list : list Player) :
  (0 <= rate)%Q ->
  result (get_player_list all_players_table season) = Ret player_list ->
  let run := fetch_three_point_data all_players_table shot_chart_table
                                    season rate in
  filter is_fetch_or_sleep (trace run)
  = flat_map (fun player => [ShotChartDetail (player_id player) season;
                             Sleep rate]) player_list /\
  filter is_sleep (trace run) = repeat (Sleep rate) (length player_list) /\
  length (filter is_sleep (trace run)) = length player_list /\
  default_rate_limit_seconds = (6 # 10)%Q.
Proof.
  intros Hrate Hlist run. subst run.
  rewrite (fetch_three_point_data_run _ _ _ _ _ Hrate Hlist).
  cbn [trace fst]. rewrite (get_player_list_trace _ _ Hlist).
  assert (Hsleep :
    filter is_sleep
      (header season
       ++ [Stdout (FetchingPlayerList season); CommonAllPlayers season;
           Stdout (FoundActivePlayers (length player_list))]
       ++ [Stdout (FetchingShotData (length player_list)); Stdout MayTakeAWhile]
       ++ flat_map (turn shot_chart_table season rate) player_list
       ++ [Stdout
             (if empty (flat_map (three_pointers_of shot_chart_table season)
                                 player_list)
              then NoThreePointAttemptsFound
              else CollectedAttempts
                     (length (flat_map
                                (three_pointers_of shot_chart_table season)
                                player_list)))])%list
    = repeat (Sleep rate) (length player_list)).
  { rewrite !filter_app, filter_flat_map. cbn [header filter is_sleep app].
    rewrite app_nil_r.
    rewrite (flat_map_ext _ (fun _ => [Sleep rate])).
    - clear. induction player_list as [|p l IH]; [reflexivity|].
      simpl. rewrite IH. reflexivity.
    - intros player. rewrite turn_eq.
      destruct (shot_chart_table (player_id player) season); reflexivity. }
  split; [|split; [exact Hsleep | split; [|reflexivity]]].
  - rewrite !filter_app, filter_flat_map.
    cbn [header filter is_fetch_or_sleep app]. rewrite app_nil_r.
    apply flat_map_ext. intros player. rewrite turn_eq.
    destruct (shot_chart_table (player_id player) season); reflexivity.
  - rewrite Hsleep. apply repeat_length.
Qed.

(** A rejected season argument ends the process in [parse_arguments]: the
    usage message is the only event, and the exit status is 2. *)
Lemma main_rejected_season (argv_season : option string) (e : exn) :
  validate_season_format
    (match argv_season with Some s => s | None => "2024-25" end) = Raise e ->
  let run := main all_players_table shot_chart_table mkdir_parents
                  write_parquet script_file argv_season in
  (exists msg, trace run = [UsageError msg]) /\
  result run = Raise (SystemExit 2) /\
  exit_status (result run) = 2 /\
  filter is_network (trace run) = [] /\
  filter is_file_write (trace run) = [].
Proof.
  intros Hv run. subst run. unfold main.
  destruct (parse_arguments_cases argv_season) as [[Hok _] | (msg & _ & Hp)].
  - rewrite Hok in Hv. discriminate.
  - rewrite Hp, bind_Raise. cbn [trace result fst snd].
    split; [eexists; reflexivity|]. repeat split.
Qed.

Lemma main_run (argv_season : option string) (season : string) :
  result (parse_arguments argv_season) = Ret season ->
  main all_players_table shot_chart_table mkdir_parents write_parquet
       script_file argv_season
  = (print (FetchingSeason season) ;;
     three_point_df <- fetch_three_point_data all_players_table
                         shot_chart_table season default_rate_limit_seconds ;;
     if negb (empty three_point_df) then
       save_to_parquet mkdir_parents write_parquet three_point_df
                       (output_path_for script_file season) ;;
       print Rule ;;
       print PipelineComplete ;;
       print (TotalAttempts (length three_point_df)) ;;
       print (OutputFile (output_path_for script_file season)) ;;
       print Rule
     else print NoDataToSave)%run.
Proof.
  intros Hp. unfold main.
  destruct (parse_arguments_cases argv_season) as [[_ Hok] | (msg & _ & Hbad)].
  - rewrite Hok in Hp |- *. cbn [result snd] in Hp. injection Hp as <-.
    rewrite bind_Ret. cbn [app]. symmetry. apply run_eta.
  - rewrite Hbad in Hp. discriminate Hp.
Qed.

(** C6.  When the aggregated table of a run is empty, [main] writes no file
    and creates no directory, prints the line that says there is no data to
    save as its last event, and returns: the exit status is 0. *)
Theorem main_no_data (argv_season : option string) (season : string) :
  result (parse_arguments argv_season) = Ret season ->
  result (fetch_three_point_data all_players_table shot_chart_table season
                                 default_rate_limit_seconds) = Ret [] ->
  let run := main all_players_table shot_chart_table mkdir_parents
                  write_parquet script_file argv_season in
  filter is_file_write (trace run) = [] /\
  (exists t, trace run = (t ++ [Stdout NoDataToSave])%list) /\
  result run = Ret tt /\
  exit_status (result run) = 0.
Proof.
  intros Hp Hf run. subst run. rewrite (main_run _ _ Hp).
  unfold print at 1. unfold emit. rewrite bind_Ret.
  rewrite (run_eta (fetch_three_point_data _ _ _ _)), Hf, bind_Ret.
  cbn [empty negb print emit trace result fst snd app].
  split; [|split; [|split; reflexivity]].
  - cbn [filter is_file_write]. rewrite filter_app.
    rewrite (fetch_three_point_data_no_file_write _ _
               default_rate_limit_seconds_nonneg).
    reflexivity.
  - exists (Stdout (FetchingSeason season)
            :: trace (fetch_three_point_data all_players_table
                        shot_chart_table season default_rate_limit_seconds)).
    reflexivity.
Qed.

(** When the aggregated table has a row, [main] creates the directory of
    the derived path and, once that is done, hands the table and the path
    to the writer. *)
Lemma main_with_data (argv_season : option string) (season : string)
    (r : ShotRecord) (table : DataFrame) :
  result (parse_arguments argv_season) = Ret season ->
  result (fetch_three_point_data all_players_table shot_chart_table season
                                 default_rate_limit_seconds)
  = Ret (r :: table) ->
  mkdir_parents (parent (output_path_for script_file season)) = Returned tt ->
  let run := main all_players_table shot_chart_table mkdir_parents
                  write_parquet script_file argv_season in
  In (Mkdir (parent (output_path_for script_file season))) (trace run) /\
  In (ToParquet (r :: table) (output_path_for script_file season)) (trace run).
Proof.
  intros Hp Hf Hmk run. subst run. rewrite (main_run _ _ Hp).
  unfold print at 1. unfold emit. rewrite bind_Ret.
  rewrite (run_eta (fetch_three_point_data _ _ _ _)), Hf.
  remember (trace (fetch_three_point_data all_players_table shot_chart_table
                     season default_rate_limit_seconds)) as tf.
  rewrite bind_Ret. cbn [empty negb].
  unfold save_to_parquet, call, emit. rewrite Hmk.
  destruct (write_parquet (r :: table) (output_path_for script_file season))
    as [[]|msg];
    cbn [bind ret raise print emit trace result fst snd app];
    (split; right; apply in_or_app; right;
     [left; reflexivity | right; left; reflexivity]).
Qed.

End Driver.

(** ** The output path *)

Lemma parent_joinpath (p : Path) (name : string) :
  parent (p // name)%path = p.
Proof.
  destruct p as [a ps]. unfold parent, joinpath. cbn [anchor parts].
  rewrite removelast_last. reflexivity.
Qed.

(** C7.  A validated season has one hyphen, after its first four characters;
    the file name is the season with that hyphen turned into an underscore,
    between nba_3pt_ and .parquet, and the file lies in data/raw under the
    directory two levels above the script. *)
Theorem output_path_of_validated_season (root : Path) (season : string) :
  validate_season_format season = Ret season ->
  exists yyyy rest,
    season = yyyy ++ "-" ++ rest /\
    String.length yyyy = 4%nat /\
    Str.split "-" season = [yyyy; rest] /\
    Str.replace "-" "_" season = yyyy ++ "_" ++ rest /\
    output_path_for (root // "scripts" // "fetch_data.py")%path season
    = (root // "data" // "raw"
       // ("nba_3pt_" ++ yyyy ++ "_" ++ rest ++ ".parquet"))%path.
Proof.
  intros Hv. apply validate_season_format_accepts in Hv.
  destruct Hv as (d1 & d2 & d3 & d4 & d5 & d6 & tail & Hd & Ht & -> & _).
  exists (String d1 (String d2 (String d3 (String d4 EmptyString)))),
         (String d5 (String d6 tail)).
  assert (Hrep : Str.replace "-" "_"
                   (SeasonSpec.season_of d1 d2 d3 d4 d5 d6 ++ tail)
                 = String d1 (String d2 (String d3 (String d4 EmptyString)))
                   ++ "_" ++ String d5 (String d6 tail)).
  { destruct Hd as (H1 & H2 & H3 & H4 & H5 & H6).
    digit_facts H1. digit_facts H2. digit_facts H3. digit_facts H4.
    digit_facts H5. digit_facts H6.
    simpl. rewrite Ehy, Ehy0, Ehy1, Ehy2, Ehy3, Ehy4.
    destruct Ht as [-> | ->]; reflexivity. }
  split; [reflexivity|]. split; [reflexivity|].
  split; [apply (split_season _ _ _ _ _ _ _ Hd Ht)|].
  split; [exact Hrep|].
  unfold output_path_for. rewrite !parent_joinpath, Hrep.
  reflexivity.
Qed.

(** ** The two seasons, run *)

Example scenario_main_2023_24 :
  result (Scenario.main (Some "2023-24")) = Ret tt /\
  filter is_file_write (trace (Scenario.main (Some "2023-24")))
  = [Mkdir {| anchor := "/"; parts := ["repo"; "data"; "raw"] |};
     ToParquet [Scenario.shot "3PT Field Goal" "A" "10"]
       {| anchor := "/";
          parts := ["repo"; "data"; "raw"; "nba_3pt_2023_24.parquet"] |}].
Proof. split; reflexivity. Qed.

Example scenario_main_2024_26 :
  exists msg,
    Scenario.main (Some "2024-26") = ([UsageError msg], Raise (SystemExit 2)).
Proof. eexists. reflexivity. Qed.

(** C9.  A season argument that is not of the form YYYY-YY is to end the
    process with a usage error before any query.  With 2024-25 followed by a
    line feed as the argument, the process does not exit in the parser: the
    roster query is sent for that season, because the [$] of the pattern
    lets the line feed through the validator. *)
Theorem main_line_feed_season_reaches_network :
  let season := "2024-25" ++ String Str.LF EmptyString in
  ~ SeasonSpec.is_YYYY_YY season /\
  In (CommonAllPlayers season) (trace (Scenario.main (Some season))) /\
  filter is_file_write (trace (Scenario.main (Some season))) <> [] /\
  result (Scenario.main (Some season)) = Ret tt.
Proof.
  cbv zeta. split; [|split; [|split]].
  - intros (d1 & d2 & d3 & d4 & d5 & d6 & _ & H).
    apply (f_equal String.length) in H. discriminate H.
  - vm_compute. do 6 right. left. reflexivity.
  - vm_compute. discriminate.
  - reflexivity.
Qed.

(** C5, as stated, fails: the rows kept for players A and B differ (A has
    none, B has one), and the concatenation in the reverse order, B then A,
    is the aggregated table. *)
Lemma reverse_order_can_equal_aggregate :
  result (get_player_list Quiet.all_players_table "2023-24")
  = Ret [Quiet.A; Quiet.B] /\
  three_pointers_of Quiet.shot_chart_table "2023-24" Quiet.A
  <> three_pointers_of Quiet.shot_chart_table "2023-24" Quiet.B /\
  result (fetch_three_point_data Quiet.all_players_table
            Quiet.shot_chart_table "2023-24" default_rate_limit_seconds)
  = Ret (three_pointers_of Quiet.shot_chart_table "2023-24" Quiet.B
         ++ three_pointers_of Quiet.shot_chart_table "2023-24" Quiet.A)%list.
Proof.
  split; [reflexivity|]. split; [|reflexivity].
  vm_compute. discriminate.
Qed.

(** ** The claims on the seasons above *)

Lemma fetch_failure_is_isolated_scenario :
  result (get_player_shots Scenario.shot_chart_table 2 "B" "2023-24") = Ret [] /\
  result (fetch_three_point_data Scenario.all_players_table
            Scenario.shot_chart_table "2023-24" default_rate_limit_seconds)
  = Ret (flat_map (three_pointers_of Scenario.shot_chart_table "2023-24")
                  ([{| player_id := 1; player_name := "A" |}] ++ [])%list).
Proof.
  apply (fetch_failure_is_isolated Scenario.all_players_table
           Scenario.shot_chart_table "2023-24" default_rate_limit_seconds
           2 "B" "timed out" [{| player_id := 1; player_name := "A" |}] []).
  - exact default_rate_limit_seconds_nonneg.
  - reflexivity.
  - reflexivity.
Defined.

Lemma aggregate_keeps_exact_marker_scenario :
  exists table,
    result (fetch_three_point_data Scenario.all_players_table
              Scenario.shot_chart_table "2023-24" default_rate_limit_seconds)
    = Ret table /\
    In (Scenario.shot "3PT Field Goal" "A" "10") table /\
    ~ In (Scenario.shot "2PT Field Goal" "A" "20") table.
Proof.
  destruct (aggregate_keeps_exact_marker Scenario.all_players_table
              Scenario.shot_chart_table "2023-24" default_rate_limit_seconds
              [{| player_id := 1; player_name := "A" |};
               {| player_id := 2; player_name := "B" |}]
              default_rate_limit_seconds_nonneg eq_refl)
    as (table & Hres & Hiff & Hex).
  exists table. split; [exact Hres|]. split.
  - apply Hiff. split; [|reflexivity].
    exists {| player_id := 1; player_name := "A" |}.
    split; [left; reflexivity | left; reflexivity].
  - intros Hin. apply Hex in Hin. destruct Hin as [Hin _].
    apply Hin. reflexivity.
Defined.

Lemma aggregate_row_order_busy :
  result (fetch_three_point_data Busy.all_players_table Busy.shot_chart_table
            "2023-24" default_rate_limit_seconds)
  = Ret [Scenario.shot "3PT Field Goal" "A" "5";
         Scenario.shot "3PT Field Goal" "B" "25"] /\
  result (fetch_three_point_data Busy.all_players_table Busy.shot_chart_table
            "2023-24" default_rate_limit_seconds)
  <> Ret [Scenario.shot "3PT Field Goal" "B" "25";
          Scenario.shot "3PT Field Goal" "A" "5"].
Proof.
  destruct (aggregate_row_order Busy.all_players_table Busy.shot_chart_table
              "2023-24" default_rate_limit_seconds [Quiet.A; Quiet.B]
              default_rate_limit_seconds_nonneg eq_refl) as [Horder Hrev].
  split; [exact Horder|].
  apply (Hrev Quiet.A Quiet.B eq_refl); discriminate.
Defined.

Lemma rows_carry_the_supplied_name_scenario :
  result (get_player_shots Scenario.shot_chart_table 1 "A" "2023-24")
  = Ret [Scenario.shot "3PT Field Goal" "A" "10";
         Scenario.shot "2PT Field Goal" "A" "20"] /\
  exists table,
    result (fetch_three_point_data Scenario.all_players_table
              Scenario.shot_chart_table "2023-24" default_rate_limit_seconds)
    = Ret table /\
    table = [Scenario.shot "3PT Field Goal" "A" "10"].
Proof.
  destruct (rows_carry_the_supplied_name Scenario.all_players_table
              Scenario.shot_chart_table "2023-24" default_rate_limit_seconds
              [{| player_id := 1; player_name := "A" |};
               {| player_id := 2; player_name := "B" |}]
              default_rate_limit_seconds_nonneg eq_refl)
    as (Hfetch & table & Hres & _).
  split.
  - exact (proj1 (Hfetch 1 "A" _ eq_refl)).
  - exists table. split; [exact Hres|].
    assert (H : Ret table
                = Ret [Scenario.shot "3PT Field Goal" "A" "10"])
      by (rewrite <- Hres; reflexivity).
    injection H as H. exact H.
Defined.

Lemma sleep_after_every_fetch_scenario :
  filter is_fetch_or_sleep
    (trace (fetch_three_point_data Scenario.all_players_table
              Scenario.shot_chart_table "2023-24" default_rate_limit_seconds))
  = [ShotChartDetail 1 "2023-24"; Sleep (6 # 10);
     ShotChartDetail 2 "2023-24"; Sleep (6 # 10)].
Proof.
  exact (proj1 (sleep_after_every_fetch Scenario.all_players_table
                  Scenario.shot_chart_table "2023-24"
                  default_rate_limit_seconds
                  [{| player_id := 1; player_name := "A" |};
                   {| player_id := 2; player_name := "B" |}]
                  default_rate_limit_seconds_nonneg eq_refl)).
Defined.

Lemma main_no_data_offline :
  filter is_file_write (trace (Offline.main (Some "2023-24"))) = [] /\
  (exists t, trace (Offline.main (Some "2023-24"))
             = (t ++ [Stdout NoDataToSave])%list) /\
  result (Offline.main (Some "2023-24")) = Ret tt /\
  exit_status (result (Offline.main (Some "2023-24"))) = 0.
Proof.
  apply (main_no_data Offline.all_players_table Offline.shot_chart_table
           Scenario.mkdir_parents Scenario.write_parquet Scenario.script_file
           (Some "2023-24") "2023-24").
  - reflexivity.
  - reflexivity.
Defined.

Lemma output_path_of_season_2024_25 :
  exists yyyy rest,
    "2024-25" = yyyy ++ "-" ++ rest /\
    String.length yyyy = 4%nat /\
    Str.split "-" "2024-25" = [yyyy; rest] /\
    Str.replace "-" "_" "2024-25" = yyyy ++ "_" ++ rest /\
    output_path_for Scenario.script_file "2024-25"
    = ({| anchor := "/"; parts := ["repo"] |} // "data" // "raw"
       // ("nba_3pt_" ++ yyyy ++ "_" ++ rest ++ ".parquet"))%path.
Proof.
  apply (output_path_of_validated_season
           {| anchor := "/"; parts := ["repo"] |} "2024-25").
  reflexivity.
Defined.

Example output_path_2024_25 :
  output_path_for Scenario.script_file "2024-25"
  = {| anchor := "/";
       parts := ["repo"; "data"; "raw"; "nba_3pt_2024_25.parquet"] |}.
Proof. reflexivity. Qed.


(** * Further properties *)

(** ** The validator, on every string *)


(** X2.  On every string the validator returns its argument or raises
    [ArgumentTypeError]: after the pattern has matched, neither the two
    [int] conversions nor the two subscripts of the split can raise. *)
Theorem season_validator_raises_only_ArgumentTypeError (season : string) :
  (forall s, validate_season_format season = Ret s -> s = season) /\
  (forall e, validate_season_format season = Raise e ->
             exists msg, e = ArgumentTypeError msg) /\
  (Re.re_match pattern season = false ->
   validate_season_format season
   = Raise (ArgumentTypeError
              ("Invalid season format: '" ++ season
               ++ "'. Expected format: 'YYYY-YY' (e.g., '2024-25')"))).
Proof.
  split; [|split].
  - intros s Hs.
    destruct (validate_season_format_total season) as [Hv | [msg Hv]];
      rewrite Hv in Hs; [injection Hs as <-; reflexivity | discriminate Hs].
  - intros e He.
    destruct (validate_season_format_total season) as [Hv | [msg Hv]];
      rewrite Hv in He; [discriminate He | injection He as <-].
    exists msg. reflexivity.
  - intros Hm. unfold validate_season_format. rewrite Hm. reflexivity.
Qed.

(** X3.  On four digits, a hyphen and two digits, the validator returns the string
    exactly when the two digits are the year modulo 100 plus one, and raises
    the error about consecutive years otherwise. *)
Theorem season_validator_on_YYYY_YY d1 d2 d3 d4 d5 d6 :
  SeasonSpec.digits6 d1 d2 d3 d4 d5 d6 ->
  let season := SeasonSpec.season_of d1 d2 d3 d4 d5 d6 in
  (validate_season_format season = Ret season <->
   SeasonSpec.consecutive d1 d2 d3 d4 d5 d6) /\
  (~ SeasonSpec.consecutive d1 d2 d3 d4 d5 d6 ->
   validate_season_format season
   = Raise (ArgumentTypeError
              ("Invalid season: '" ++ season
               ++ "'. Years must be consecutive (e.g., '2024-25', not '2024-26')"))).
Proof.
  intros Hd season.
  split; [apply (validate_season_format_YYYY_YY _ _ _ _ _ _ Hd)|].
  intros Hn.
  assert (Hv := validate_season_format_matched d1 d2 d3 d4 d5 d6 EmptyString
                  Hd (or_introl eq_refl)).
  change (SeasonSpec.season_of d1 d2 d3 d4 d5 d6 ++ EmptyString) with season in Hv.
  cbv zeta in Hv. rewrite Hv.
  destruct (_ =? _) eqn:He; [|reflexivity].
  apply Z.eqb_eq in He. contradiction.
Qed.

(** X4.  After a year that ends in 99 the validator accepts no suffix at all: not
    00, and not any other two digits. *)
Theorem season_validator_rejects_year_99 d1 d2 d5 d6 :
  Str.isdecimal d1 = true -> Str.isdecimal d2 = true ->
  Str.isdecimal d5 = true -> Str.isdecimal d6 = true ->
  exists msg,
    validate_season_format (SeasonSpec.season_of d1 d2 "9" "9" d5 d6)
    = Raise (ArgumentTypeError msg).
Proof.
  intros H1 H2 H5 H6.
  apply validate_season_format_century.
  - repeat split; assumption.
  - digit_facts H1. digit_facts H2. unfold SeasonSpec.prefix_value.
    change (Str.digit_value "9") with 9.
    replace (1000 * Str.digit_value d1 + 100 * Str.digit_value d2 + 10 * 9 + 9)
      with (99 + (10 * Str.digit_value d1 + Str.digit_value d2) * 100) by lia.
    rewrite Z.mod_add by lia. reflexivity.
Qed.

(** ** Every way [main] can end *)

Section Outcomes.

Variable all_players_table : string -> response (list RosterRow).
Variable shot_chart_table : Z -> string -> response DataFrame.
Variable mkdir_parents : Path -> response unit.
Variable write_parquet : DataFrame -> Path -> response unit.
Variable script_file : Path.

Lemma main_outcome (argv_season : option string) (season : string) :
  result (parse_arguments argv_season) = Ret season ->
  let run := fetch_three_point_data all_players_table shot_chart_table season
                                    default_rate_limit_seconds in
  let p := output_path_for script_file season in
  main all_players_table shot_chart_table mkdir_parents write_parquet
       script_file argv_season
  = match result run with
    | Raise e => (Stdout (FetchingSeason season) :: trace run, Raise e)
    | Ret [] =>
        (Stdout (FetchingSeason season) :: trace run ++ [Stdout NoDataToSave],
         Ret tt)
    | Ret (r :: table) =>
        match mkdir_parents (parent p) with
        | Failed msg =>
            (Stdout (FetchingSeason season) :: trace run ++ [Mkdir (parent p)],
             Raise (Exception msg))
        | Returned _ =>
            match write_parquet (r :: table) p with
            | Failed msg =>
                (Stdout (FetchingSeason season)
                 :: trace run ++ [Mkdir (parent p); ToParquet (r :: table) p],
                 Raise (Exception msg))
            | Returned _ =>
                (Stdout (FetchingSeason season)
                 :: trace run ++ saved (r :: table) p,
                 Ret tt)
            end
        end
    end%list.
Proof.
  intros Hp run p. rewrite (main_run _ _ _ _ _ _ _ Hp). fold run. fold p.
  unfold print at 1. unfold emit. rewrite bind_Ret.
  rewrite (run_eta run).
  remember (trace run) as tf. destruct (result run) as [[|r table]|e].
  - rewrite bind_Ret. reflexivity.
  - rewrite bind_Ret. cbn [empty negb result trace fst snd].
    unfold save_to_parquet, call, emit.
    destruct (mkdir_parents (parent p)) as [[]|msg]; [|reflexivity].
    destruct (write_parquet (r :: table) p) as [[]|msg]; reflexivity.
  - reflexivity.
Qed.

Lemma fetch_three_point_data_ends (season : string) :
  (exists table,
     result (fetch_three_point_data all_players_table shot_chart_table season
                                    default_rate_limit_seconds) = Ret table) \/
  (exists msg,
     all_players_table season = Failed msg /\
     fetch_three_point_data all_players_table shot_chart_table season
                            default_rate_limit_seconds
     = ((header season
         ++ [Stdout (FetchingPlayerList season); CommonAllPlayers season])%list,
        Raise (Exception msg))).
Proof.
  destruct (all_players_table season) as [rows|msg] eqn:Hrows.
  - left. eexists.
    eapply fetch_three_point_data_result;
      [exact default_rate_limit_seconds_nonneg|].
    rewrite get_player_list_run, Hrows. reflexivity.
  - right. exists msg. split; [reflexivity|].
    apply fetch_three_point_data_fail.
    rewrite get_player_list_run, Hrows. reflexivity.
Qed.

Lemma filter_nil_In {A} (f : A -> bool) (l : list A) (x : A) :
  filter f l = [] -> In x l -> f x = false.
Proof.
  intros Hf Hx. destruct (f x) eqn:E; [|reflexivity].
  assert (H : In x (filter f l)) by (apply filter_In; split; assumption).
  rewrite Hf in H. destruct H.
Qed.

Lemma no_file_write_no_parquet (l : list event) :
  filter is_file_write l = [] -> filter is_to_parquet l = [].
Proof.
  induction l as [|e l IH]; [reflexivity|].
  destruct e; cbn [filter is_file_write is_to_parquet]; try exact IH;
    discriminate.
Qed.

(** X5.  When the validator raises on the season argument, the whole run of [main]
    is the usage message, which carries the message of the validator, and
    the exit with status 2: no query is sent, nothing is printed on standard
    output, no directory is made and no file is written. *)
Theorem rejected_season_exits_in_the_parser (argv_season : option string)
    (msg : string) :
  validate_season_format
    (match argv_season with Some s => s | None => "2024-25" end)
  = Raise (ArgumentTypeError msg) ->
  main all_players_table shot_chart_table mkdir_parents write_parquet
       script_file argv_season
  = ([UsageError ("argument --season: " ++ msg)], Raise (SystemExit 2)).
Proof.
  intros Hv. unfold main.
  destruct (parse_arguments_cases argv_season)
    as [[Hok _] | (msg' & Hbad & Hp)].
  - rewrite Hok in Hv. discriminate Hv.
  - rewrite Hbad in Hv. injection Hv as ->. rewrite Hp. reflexivity.
Qed.

(** X6.  When the roster query fails, the exception leaves [main]: the exit status
    is 1, the roster query is the only query sent, and the run neither sleeps
    nor touches the file system. *)
Theorem main_roster_failure (argv_season : option string)
    (season msg : string) :
  result (parse_arguments argv_season) = Ret season ->
  all_players_table season = Failed msg ->
  let run := main all_players_table shot_chart_table mkdir_parents
                  write_parquet script_file argv_season in
  result run = Raise (Exception msg) /\
  exit_status (result run) = 1 /\
  filter is_network (trace run) = [CommonAllPlayers season] /\
  filter is_sleep (trace run) = [] /\
  filter is_file_write (trace run) = [].
Proof.
  intros Hp Hfail run. subst run. rewrite (main_outcome _ _ Hp).
  destruct (fetch_three_point_data_ends season)
    as [[table Ht] | (msg' & Hm & Hrun)].
  - exfalso.
    destruct (result (get_player_list all_players_table season))
      as [pl|e] eqn:Hl.
    + rewrite get_player_list_run, Hfail in Hl. discriminate Hl.
    + rewrite (fetch_three_point_data_fail _ _ _ _ _ Hl) in Ht. discriminate Ht.
  - rewrite Hfail in Hm. injection Hm as <-. rewrite Hrun.
    cbn [result trace fst snd]. repeat split.
Qed.

(** X7.  When the directory of the output file cannot be made, [to_parquet] is not
    called: the exception leaves [main] and nothing happens after the
    attempt. *)
Theorem main_mkdir_failure (argv_season : option string) (season msg : string)
    (r : ShotRecord) (table : DataFrame) :
  result (parse_arguments argv_season) = Ret season ->
  result (fetch_three_point_data all_players_table shot_chart_table season
                                 default_rate_limit_seconds)
  = Ret (r :: table) ->
  mkdir_parents (parent (output_path_for script_file season)) = Failed msg ->
  let run := main all_players_table shot_chart_table mkdir_parents
                  write_parquet script_file argv_season in
  result run = Raise (Exception msg) /\
  exit_status (result run) = 1 /\
  filter is_file_write (trace run)
  = [Mkdir (parent (output_path_for script_file season))] /\
  exists t, trace run
            = (t ++ [Mkdir (parent (output_path_for script_file season))])%list.
Proof.
  intros Hp Hf Hmk run. subst run. rewrite (main_outcome _ _ Hp), Hf, Hmk.
  cbn [result trace fst snd]. split; [reflexivity|]. split; [reflexivity|].
  split.
  - cbn [filter is_file_write]. rewrite filter_app.
    rewrite (fetch_three_point_data_no_file_write _ _ _ _
               default_rate_limit_seconds_nonneg).
    reflexivity.
  - eexists (_ :: _). reflexivity.
Qed.

(** X8.  When the file cannot be written, the exception leaves [main] after the
    directory was made: the attempt to write is the last event, so neither
    the line about the saved file nor the final report is printed. *)
Theorem main_write_failure (argv_season : option string) (season msg : string)
    (r : ShotRecord) (table : DataFrame) :
  result (parse_arguments argv_season) = Ret season ->
  result (fetch_three_point_data all_players_table shot_chart_table season
                                 default_rate_limit_seconds)
  = Ret (r :: table) ->
  mkdir_parents (parent (output_path_for script_file season)) = Returned tt ->
  write_parquet (r :: table) (output_path_for script_file season) = Failed msg ->
  let run := main all_players_table shot_chart_table mkdir_parents
                  write_parquet script_file argv_season in
  let p := output_path_for script_file season in
  result run = Raise (Exception msg) /\
  exit_status (result run) = 1 /\
  filter is_file_write (trace run) = [Mkdir (parent p); ToParquet (r :: table) p] /\
  exists t, trace run = (t ++ [ToParquet (r :: table) p])%list.
Proof.
  intros Hp Hf Hmk Hw run p. subst run p.
  rewrite (main_outcome _ _ Hp), Hf, Hmk, Hw.
  cbn [result trace fst snd]. split; [reflexivity|]. split; [reflexivity|].
  split.
  - cbn [filter is_file_write]. rewrite filter_app.
    rewrite (fetch_three_point_data_no_file_write _ _ _ _
               default_rate_limit_seconds_nonneg).
    reflexivity.
  - exists (Stdout (FetchingSeason season)
            :: trace (fetch_three_point_data all_players_table
                        shot_chart_table season default_rate_limit_seconds)
            ++ [Mkdir (parent (output_path_for script_file season))])%list.
    cbn [app]. rewrite <- app_assoc. reflexivity.
Qed.

(** X9.  When the table has a row and the file system obliges, [main] makes the
    directory and then writes the table once, at the derived path; it reports
    the number of rows of the table and returns. *)
Theorem main_saves_the_table (argv_season : option string) (season : string)
    (r : ShotRecord) (table : DataFrame) :
  result (parse_arguments argv_season) = Ret season ->
  result (fetch_three_point_data all_players_table shot_chart_table season
                                 default_rate_limit_seconds)
  = Ret (r :: table) ->
  mkdir_parents (parent (output_path_for script_file season)) = Returned tt ->
  write_parquet (r :: table) (output_path_for script_file season)
  = Returned tt ->
  let run := main all_players_table shot_chart_table mkdir_parents
                  write_parquet script_file argv_season in
  let p := output_path_for script_file season in
  result run = Ret tt /\
  exit_status (result run) = 0 /\
  filter is_file_write (trace run) = [Mkdir (parent p); ToParquet (r :: table) p] /\
  In (Stdout (TotalAttempts (S (length table)))) (trace run) /\
  In (Stdout (DataSavedTo p)) (trace run).
Proof.
  intros Hp Hf Hmk Hw run p. subst run p.
  rewrite (main_outcome _ _ Hp), Hf, Hmk, Hw.
  cbn [result trace fst snd]. split; [reflexivity|]. split; [reflexivity|].
  split; [|split].
  - cbn [filter is_file_write]. rewrite filter_app.
    rewrite (fetch_three_point_data_no_file_write _ _ _ _
               default_rate_limit_seconds_nonneg).
    reflexivity.
  - right. apply in_or_app. right. unfold saved. cbn [length].
    do 5 right. left. reflexivity.
  - right. apply in_or_app. right. unfold saved.
    do 2 right. left. reflexivity.
Qed.


(** X11.  [main] never writes an empty table and never writes twice: a table handed
    to [to_parquet] is the aggregated table of the validated season, it has a
    row, the path is the one derived from that season, and the trace holds at
    most one such event. *)
Theorem main_writes_once_and_never_empty (argv_season : option string)
    (df : DataFrame) (p : Path) :
  let arg := match argv_season with Some s => s | None => "2024-25" end in
  let run := main all_players_table shot_chart_table mkdir_parents
                  write_parquet script_file argv_season in
  In (ToParquet df p) (trace run) ->
  df <> [] /\
  validate_season_format arg = Ret arg /\
  result (fetch_three_point_data all_players_table shot_chart_table arg
                                 default_rate_limit_seconds) = Ret df /\
  p = output_path_for script_file arg /\
  filter is_to_parquet (trace run) = [ToParquet df p].
Proof.
  intros arg run Hin. subst run.
  assert (Hq := fetch_three_point_data_no_file_write all_players_table
                  shot_chart_table arg _ default_rate_limit_seconds_nonneg).
  destruct (parse_arguments_cases argv_season)
    as [[Hv Hp] | (msg & Hv & Hp)]; fold arg in Hv, Hp.
  - assert (Hr : result (parse_arguments argv_season) = Ret arg)
      by (rewrite Hp; reflexivity).
    rewrite (main_outcome _ _ Hr) in Hin |- *.
    assert (Hnot : ~ In (ToParquet df p)
                     (trace (fetch_three_point_data all_players_table
                               shot_chart_table arg default_rate_limit_seconds))).
    { intros H. apply (filter_nil_In _ _ _ Hq) in H. discriminate H. }
    apply no_file_write_no_parquet in Hq.
    destruct (result (fetch_three_point_data _ _ _ _)) as [[|r table]|e].
    + cbn [trace fst] in Hin. destruct Hin as [Hin|Hin]; [discriminate Hin|].
      apply in_app_or in Hin. destruct Hin as [Hin|[Hin|[]]];
        [contradiction | discriminate Hin].
    + destruct (mkdir_parents _) as [[]|m].
      * assert (Hev : ToParquet (r :: table) (output_path_for script_file arg)
                      = ToParquet df p).
        { destruct (write_parquet _ _) as [[]|m]; cbn [trace fst] in Hin;
            (destruct Hin as [Hin|Hin]; [discriminate Hin|]);
            apply in_app_or in Hin; (destruct Hin as [Hin|Hin];
              [contradiction|]); unfold saved in Hin; cbn [In] in Hin;
            repeat (destruct Hin as [Hin|Hin]; try discriminate Hin;
                    try exact Hin); destruct Hin. }
        injection Hev as <- <-.
        split; [discriminate|]. split; [exact Hv|]. split; [reflexivity|].
        split; [reflexivity|].
        destruct (write_parquet _ _) as [[]|m]; cbn [trace fst];
          cbn [filter is_to_parquet]; rewrite filter_app, Hq; reflexivity.
      * cbn [trace fst] in Hin. destruct Hin as [Hin|Hin]; [discriminate Hin|].
        apply in_app_or in Hin. destruct Hin as [Hin|[Hin|[]]];
          [contradiction | discriminate Hin].
    + cbn [trace fst] in Hin. destruct Hin as [Hin|Hin]; [discriminate Hin|].
      contradiction.
  - unfold main in Hin. rewrite Hp in Hin. cbn in Hin.
    destruct Hin as [Hin|[]]. discriminate Hin.
Qed.

End Outcomes.

(** ** What a run sends, prints and counts *)

Lemma length_flat_map_sum {A B} (f : A -> list B) (l : list A) :
  length (flat_map f l) = list_sum (map (fun x => length (f x)) l).
Proof.
  induction l as [|x l IH]; [reflexivity|].
  cbn [flat_map map list_sum]. rewrite length_app, IH. reflexivity.
Qed.

Lemma sleep_negative (seconds : Q) :
  (seconds < 0)%Q ->
  sleep seconds = ([], Raise (ValueError "sleep length must be non-negative")).
Proof.
  intros H. unfold sleep. destruct (Qle_bool 0 seconds) eqn:E; [|reflexivity].
  apply Qle_bool_iff in E. exfalso. apply (Qlt_not_le _ _ H E).
Qed.

Section Runs.

Variable all_players_table : string -> response (list RosterRow).
Variable shot_chart_table : Z -> string -> response DataFrame.


(** X13.  The queries of a run are the roster query and then one shot query for
    each roster row whose ROSTERSTATUS is 1, in the order of the roster and
    for the season of the run; no query is sent for any other row. *)
Theorem queries_follow_the_roster (season : string) (rate : Q)
    (players_data : list RosterRow) :
  (0 <= rate)%Q ->
  all_players_table season = Returned players_data ->
  filter is_network
    (trace (fetch_three_point_data all_players_table shot_chart_table
                                   season rate))
  = CommonAllPlayers season
    :: map (fun row => ShotChartDetail (PERSON_ID row) season)
           (filter (fun row => ROSTERSTATUS row =? 1) players_data).
Proof.
  intros Hrate Hrows.
  assert (Hlist : result (get_player_list all_players_table season)
                  = Ret (map (fun row => {| player_id := PERSON_ID row;
                                            player_name := DISPLAY_FIRST_LAST row |})
                             (filter (fun row => ROSTERSTATUS row =? 1)
                                     players_data))).
  { rewrite get_player_list_run, Hrows. reflexivity. }
  rewrite (fetch_three_point_data_run _ _ _ _ _ Hrate Hlist).
  cbn [trace fst]. rewrite (get_player_list_trace _ _ _ Hlist).
  rewrite !filter_app, filter_flat_map.
  cbn [header filter is_network app]. rewrite app_nil_r. apply f_equal.
  clear Hlist Hrows.
  induction (filter (fun row => ROSTERSTATUS row =? 1) players_data)
    as [|row rows IH]; [reflexivity|].
  cbn [map flat_map]. rewrite IH, turn_eq. cbn [player_id player_name].
  destruct (shot_chart_table (PERSON_ID row) season); reflexivity.
Qed.

(** X14.  A run prints one warning for each player whose query failed, in the order
    of the list and with the text of the exception, and none for a player
    whose query returned. *)
Theorem warnings_name_the_failed_players (season : string) (rate : Q)
    (player_list : list Player) :
  (0 <= rate)%Q ->
  result (get_player_list all_players_table season) = Ret player_list ->
  filter is_warning
    (trace (fetch_three_point_data all_players_table shot_chart_table
                                   season rate))
  = flat_map
      (fun player =>
         match shot_chart_table (player_id player) season with
         | Returned _ => []
         | Failed e =>
             [Stdout (ErrorFetchingData (player_name player)
                                        (player_id player) e)]
         end) player_list.
Proof.
  intros Hrate Hlist.
  rewrite (fetch_three_point_data_run _ _ _ _ _ Hrate Hlist).
  cbn [trace fst]. rewrite (get_player_list_trace _ _ _ Hlist).
  rewrite !filter_app, filter_flat_map.
  assert (Hlast : forall m,
            filter is_warning
              [Stdout (if empty (flat_map (three_pointers_of shot_chart_table
                                             season) player_list)
                       then NoThreePointAttemptsFound
                       else CollectedAttempts m)] = []).
  { intros m. destruct (empty _); reflexivity. }
  rewrite Hlast. cbn [header filter is_warning app]. rewrite app_nil_r.
  apply flat_map_ext. intros player. rewrite turn_eq.
  destruct (shot_chart_table (player_id player) season); reflexivity.
Qed.

(** X15.  The number a run reports is the number of rows of the table it returns,
    which is the sum over the players of the rows kept for each; with no row
    the run reports that no attempt was found.  The report is the last
    event of the run. *)
Theorem report_counts_the_rows (season : string) (rate : Q)
    (player_list : list Player) :
  (0 <= rate)%Q ->
  result (get_player_list all_players_table season) = Ret player_list ->
  exists table t,
    fetch_three_point_data all_players_table shot_chart_table season rate
    = ((t ++ [Stdout (match table with
                      | [] => NoThreePointAttemptsFound
                      | _ :: _ => CollectedAttempts (length table)
                      end)])%list,
       Ret table) /\
    length table
    = list_sum (map (fun player =>
                       length (three_pointers_of shot_chart_table season player))
                    player_list) /\
    (length table
     <= list_sum (map (fun player =>
                         length (shots_of shot_chart_table season player))
                      player_list))%nat.
Proof.
  intros Hrate Hlist.
  exists (flat_map (three_pointers_of shot_chart_table season) player_list).
  eexists. split; [|split].
  - rewrite (fetch_three_point_data_run _ _ _ _ _ Hrate Hlist).
    rewrite !app_assoc. f_equal. f_equal.
    destruct (flat_map _ _); reflexivity.
  - apply length_flat_map_sum.
  - rewrite length_flat_map_sum. clear.
    induction player_list as [|p l IH]; [apply Nat.le_refl|].
    cbn [map list_sum]. apply Nat.add_le_mono; [|exact IH].
    unfold three_pointers_of. apply filter_length_le.
Qed.

(** X16.  With a negative delay the run ends at the first sleep: the first player of
    the list is fetched, [time.sleep] raises [ValueError], no other player is
    fetched and the exception leaves [fetch_three_point_data]. *)
Theorem negative_delay_stops_the_run (season : string) (rate : Q)
    (player : Player) (rest : list Player) :
  (rate < 0)%Q ->
  result (get_player_list all_players_table season) = Ret (player :: rest) ->
  let run := fetch_three_point_data all_players_table shot_chart_table
                                    season rate in
  result run = Raise (ValueError "sleep length must be non-negative") /\
  filter is_fetch_or_sleep (trace run)
  = [ShotChartDetail (player_id player) season].
Proof.
  intros Hrate Hlist run. subst run.
  unfold fetch_three_point_data, print, emit. rewrite !bind_Ret.
  rewrite (run_eta (get_player_list all_players_table season)), Hlist.
  rewrite (get_player_list_trace _ _ _ Hlist). rewrite !bind_Ret.
  cbn [for_player_in]. rewrite get_player_shots_eq, bind_Ret.
  rewrite (sleep_negative _ Hrate), !bind_Raise.
  cbn [trace result fst snd app filter is_fetch_or_sleep].
  split; [reflexivity|].
  rewrite get_player_shots_run.
  destruct (shot_chart_table (player_id player) season); reflexivity.
Qed.

End Runs.

(** ** A season without rostered players, and where the file goes *)

(** X17.  When no row of the roster has ROSTERSTATUS 1, the run sends the roster
    query and nothing else: no shot query, no sleep, no directory and no
    file; [main] prints that there is no data to save and returns. *)
Theorem main_without_rostered_players
    (all_players_table : string -> response (list RosterRow))
    (shot_chart_table : Z -> string -> response DataFrame)
    (mkdir_parents : Path -> response unit)
    (write_parquet : DataFrame -> Path -> response unit)
    (script_file : Path)
    (argv_season : option string) (season : string)
    (players_data : list RosterRow) :
  result (parse_arguments argv_season) = Ret season ->
  all_players_table season = Returned players_data ->
  (forall row, In row players_data -> ROSTERSTATUS row <> 1) ->
  main all_players_table shot_chart_table mkdir_parents write_parquet
       script_file argv_season
  = ([Stdout (FetchingSeason season);
      Stdout Rule; Stdout PipelineTitle; Stdout (SeasonLine season);
      Stdout Rule;
      Stdout (FetchingPlayerList season); CommonAllPlayers season;
      Stdout (FoundActivePlayers 0);
      Stdout (FetchingShotData 0); Stdout MayTakeAWhile;
      Stdout NoThreePointAttemptsFound;
      Stdout NoDataToSave],
     Ret tt).
Proof.
  intros Hp Hrows Hnone.
  assert (Hf : filter (fun row => ROSTERSTATUS row =? 1) players_data = []).
  { clear Hrows. induction players_data as [|row rows IH]; [reflexivity|].
    cbn [filter].
    destruct (ROSTERSTATUS row =? 1) eqn:E.
    - apply Z.eqb_eq in E. exfalso.
      apply (Hnone row (or_introl eq_refl) E).
    - apply IH. intros row' Hin. apply Hnone. right. exact Hin. }
  assert (Hlist : result (get_player_list all_players_table season) = Ret []).
  { rewrite get_player_list_run, Hrows. cbn [result snd]. rewrite Hf.
    reflexivity. }
  rewrite (main_outcome _ _ _ _ _ _ _ Hp).
  rewrite (fetch_three_point_data_run _ _ _ _ _
             default_rate_limit_seconds_nonneg Hlist).
  rewrite (get_player_list_trace _ _ _ Hlist). reflexivity.
Qed.

Lemma replace_season d1 d2 d3 d4 d5 d6 tail :
  SeasonSpec.digits6 d1 d2 d3 d4 d5 d6 -> line_end tail ->
  Str.replace "-" "_" (SeasonSpec.season_of d1 d2 d3 d4 d5 d6 ++ tail)
  = String d1 (String d2 (String d3 (String d4
      (String "_" (String d5 (String d6 tail)))))).
Proof.
  intros (H1 & H2 & H3 & H4 & H5 & H6) Ht.
  digit_facts H1. digit_facts H2. digit_facts H3. digit_facts H4.
  digit_facts H5. digit_facts H6.
  simpl. rewrite Ehy, Ehy0, Ehy1, Ehy2, Ehy3, Ehy4.
  destruct Ht as [-> | ->]; reflexivity.
Qed.

Lemma isdecimal_not_separator (c : ascii) :
  Str.isdecimal c = true -> c <> "/"%char /\ c <> "-"%char.
Proof.
  intros H. split; intros ->; discriminate H.
Qed.

(** X18.  For a validated season the name of the output file has no path separator
    and no hyphen, so it is one part of the path, and the directory that
    [save_to_parquet] makes is data/raw two levels above the script, whatever
    the season. *)
Theorem output_file_stays_in_data_raw (script_file : Path) (season : string) :
  validate_season_format season = Ret season ->
  let name := "nba_3pt_" ++ Str.replace "-" "_" season ++ ".parquet" in
  ~ In "/"%char (list_ascii_of_string name) /\
  ~ In "-"%char (list_ascii_of_string name) /\
  parts (output_path_for script_file season)
  = (removelast (removelast (parts script_file)) ++ ["data"; "raw"; name])%list /\
  parent (output_path_for script_file season)
  = (parent (parent script_file) // "data" // "raw")%path.
Proof.
  intros Hv name. subst name. apply validate_season_format_accepts in Hv.
  destruct Hv as (d1 & d2 & d3 & d4 & d5 & d6 & tail & Hd & Ht & -> & _).
  assert (Hrep := replace_season _ _ _ _ _ _ _ Hd Ht). rewrite Hrep.
  destruct Hd as (H1 & H2 & H3 & H4 & H5 & H6).
  apply isdecimal_not_separator in H1, H2, H3, H4, H5, H6.
  split; [|split; [|split]].
  - destruct Ht as [-> | ->]; cbn; intros H;
      repeat (destruct H as [H|H];
              [first [discriminate H | tauto]|]);
      exact H.
  - destruct Ht as [-> | ->]; cbn; intros H;
      repeat (destruct H as [H|H];
              [first [discriminate H | tauto]|]);
      exact H.
  - unfold output_path_for, joinpath, parent. cbn [parts anchor].
    rewrite Hrep, <- !app_assoc. reflexivity.
  - unfold output_path_for. apply parent_joinpath.
Qed.

(** ** The further properties on the seasons above *)

Lemma season_validator_on_2024_25 :
  (validate_season_format "2024-25" = Ret "2024-25" <->
   SeasonSpec.consecutive "2" "0" "2" "4" "2" "5") /\
  (~ SeasonSpec.consecutive "2" "0" "2" "4" "2" "5" ->
   validate_season_format "2024-25"
   = Raise (ArgumentTypeError
              ("Invalid season: '" ++ "2024-25"
               ++ "'. Years must be consecutive (e.g., '2024-25', not '2024-26')"))).
Proof.
  apply (season_validator_on_YYYY_YY "2" "0" "2" "4" "2" "5").
  repeat split.
Defined.

Lemma season_validator_rejects_1999_00 :
  exists msg,
    validate_season_format "1999-00" = Raise (ArgumentTypeError msg).
Proof.
  apply (season_validator_rejects_year_99 "1" "9" "0" "0"); reflexivity.
Defined.

Lemma rejected_season_exits_in_the_parser_2024_26 :
  Scenario.main (Some "2024-26")
  = ([UsageError
        ("argument --season: "
         ++ "Invalid season: '2024-26'. Years must be consecutive (e.g., '2024-25', not '2024-26')")],
     Raise (SystemExit 2)).
Proof.
  apply (rejected_season_exits_in_the_parser Scenario.all_players_table
           Scenario.shot_chart_table Scenario.mkdir_parents
           Scenario.write_parquet Scenario.script_file (Some "2024-26")).
  reflexivity.
Defined.

Lemma main_roster_failure_roster_down :
  result (RosterDown.main (Some "2023-24"))
  = Raise (Exception "service unavailable") /\
  exit_status (result (RosterDown.main (Some "2023-24"))) = 1 /\
  filter is_network (trace (RosterDown.main (Some "2023-24")))
  = [CommonAllPlayers "2023-24"] /\
  filter is_sleep (trace (RosterDown.main (Some "2023-24"))) = [] /\
  filter is_file_write (trace (RosterDown.main (Some "2023-24"))) = [].
Proof.
  apply (main_roster_failure RosterDown.all_players_table
           Scenario.shot_chart_table Scenario.mkdir_parents
           Scenario.write_parquet Scenario.script_file (Some "2023-24")
           "2023-24" "service unavailable"); reflexivity.
Defined.

Lemma main_mkdir_failure_read_only :
  result (ReadOnly.main (Some "2023-24"))
  = Raise (Exception "read-only file system") /\
  exit_status (result (ReadOnly.main (Some "2023-24"))) = 1 /\
  filter is_file_write (trace (ReadOnly.main (Some "2023-24")))
  = [Mkdir (parent (output_path_for Scenario.script_file "2023-24"))] /\
  exists t, trace (ReadOnly.main (Some "2023-24"))
            = (t ++ [Mkdir (parent (output_path_for Scenario.script_file
                                                    "2023-24"))])%list.
Proof.
  apply (main_mkdir_failure Scenario.all_players_table
           Scenario.shot_chart_table ReadOnly.mkdir_parents
           Scenario.write_parquet Scenario.script_file (Some "2023-24")
           "2023-24" "read-only file system"
           (Scenario.shot "3PT Field Goal" "A" "10") []); reflexivity.
Defined.

Lemma main_write_failure_disk_full :
  result (DiskFull.main (Some "2023-24"))
  = Raise (Exception "no space left on device") /\
  exit_status (result (DiskFull.main (Some "2023-24"))) = 1 /\
  filter is_file_write (trace (DiskFull.main (Some "2023-24")))
  = [Mkdir (parent (output_path_for Scenario.script_file "2023-24"));
     ToParquet [Scenario.shot "3PT Field Goal" "A" "10"]
               (output_path_for Scenario.script_file "2023-24")] /\
  exists t, trace (DiskFull.main (Some "2023-24"))
            = (t ++ [ToParquet [Scenario.shot "3PT Field Goal" "A" "10"]
                               (output_path_for Scenario.script_file
                                                "2023-24")])%list.
Proof.
  apply (main_write_failure Scenario.all_players_table
           Scenario.shot_chart_table Scenario.mkdir_parents
           DiskFull.write_parquet Scenario.script_file (Some "2023-24")
           "2023-24" "no space left on device"
           (Scenario.shot "3PT Field Goal" "A" "10") []); reflexivity.
Defined.

Lemma main_saves_the_table_scenario :
  result (Scenario.main (Some "2023-24")) = Ret tt /\
  exit_status (result (Scenario.main (Some "2023-24"))) = 0 /\
  filter is_file_write (trace (Scenario.main (Some "2023-24")))
  = [Mkdir (parent (output_path_for Scenario.script_file "2023-24"));
     ToParquet [Scenario.shot "3PT Field Goal" "A" "10"]
               (output_path_for Scenario.script_file "2023-24")] /\
  In (Stdout (TotalAttempts 1)) (trace (Scenario.main (Some "2023-24"))) /\
  In (Stdout (DataSavedTo (output_path_for Scenario.script_file "2023-24")))
     (trace (Scenario.main (Some "2023-24"))).
Proof.
  apply (main_saves_the_table Scenario.all_players_table
           Scenario.shot_chart_table Scenario.mkdir_parents
           Scenario.write_parquet Scenario.script_file (Some "2023-24")
           "2023-24" (Scenario.shot "3PT Field Goal" "A" "10") []);
    reflexivity.
Defined.

Lemma main_writes_once_scenario :
  [Scenario.shot "3PT Field Goal" "A" "10"] <> [] /\
  validate_season_format "2023-24" = Ret "2023-24" /\
  result (fetch_three_point_data Scenario.all_players_table
            Scenario.shot_chart_table "2023-24" default_rate_limit_seconds)
  = Ret [Scenario.shot "3PT Field Goal" "A" "10"] /\
  output_path_for Scenario.script_file "2023-24"
  = output_path_for Scenario.script_file "2023-24" /\
  filter is_to_parquet (trace (Scenario.main (Some "2023-24")))
  = [ToParquet [Scenario.shot "3PT Field Goal" "A" "10"]
               (output_path_for Scenario.script_file "2023-24")].
Proof.
  apply (main_writes_once_and_never_empty Scenario.all_players_table
           Scenario.shot_chart_table Scenario.mkdir_parents
           Scenario.write_parquet Scenario.script_file (Some "2023-24")
           [Scenario.shot "3PT Field Goal" "A" "10"]
           (output_path_for Scenario.script_file "2023-24")).
  vm_compute. do 17 right. left. reflexivity.
Defined.

Lemma queries_follow_the_roster_scenario :
  filter is_network
    (trace (fetch_three_point_data Scenario.all_players_table
              Scenario.shot_chart_table "2023-24" default_rate_limit_seconds))
  = [CommonAllPlayers "2023-24"; ShotChartDetail 1 "2023-24";
     ShotChartDetail 2 "2023-24"].
Proof.
  exact (queries_follow_the_roster Scenario.all_players_table
           Scenario.shot_chart_table "2023-24" default_rate_limit_seconds
           Scenario.roster default_rate_limit_seconds_nonneg eq_refl).
Defined.

Lemma warnings_name_the_failed_players_scenario :
  filter is_warning
    (trace (fetch_three_point_data Scenario.all_players_table
              Scenario.shot_chart_table "2023-24" default_rate_limit_seconds))
  = [Stdout (ErrorFetchingData "B" 2 "timed out")].
Proof.
  exact (warnings_name_the_failed_players Scenario.all_players_table
           Scenario.shot_chart_table "2023-24" default_rate_limit_seconds
           [{| player_id := 1; player_name := "A" |};
            {| player_id := 2; player_name := "B" |}]
           default_rate_limit_seconds_nonneg eq_refl).
Defined.

Lemma report_counts_the_rows_scenario :
  exists table t,
    fetch_three_point_data Scenario.all_players_table
      Scenario.shot_chart_table "2023-24" default_rate_limit_seconds
    = ((t ++ [Stdout (match table with
                      | [] => NoThreePointAttemptsFound
                      | _ :: _ => CollectedAttempts (length table)
                      end)])%list,
       Ret table) /\
    length table = 1%nat /\ (length table <= 2)%nat.
Proof.
  exact (report_counts_the_rows Scenario.all_players_table
           Scenario.shot_chart_table "2023-24" default_rate_limit_seconds
           [{| player_id := 1; player_name := "A" |};
            {| player_id := 2; player_name := "B" |}]
           default_rate_limit_seconds_nonneg eq_refl).
Defined.

Lemma negative_delay_stops_the_run_scenario :
  result (fetch_three_point_data Scenario.all_players_table
            Scenario.shot_chart_table "2023-24" (-1 # 2))
  = Raise (ValueError "sleep length must be non-negative") /\
  filter is_fetch_or_sleep
    (trace (fetch_three_point_data Scenario.all_players_table
              Scenario.shot_chart_table "2023-24" (-1 # 2)))
  = [ShotChartDetail 1 "2023-24"].
Proof.
  apply (negative_delay_stops_the_run Scenario.all_players_table
           Scenario.shot_chart_table "2023-24" (-1 # 2)
           {| player_id := 1; player_name := "A" |}
           [{| player_id := 2; player_name := "B" |}]);
    reflexivity.
Defined.

Lemma main_without_rostered_players_benched :
  result (Benched.main (Some "2023-24")) = Ret tt /\
  filter is_network (trace (Benched.main (Some "2023-24")))
  = [CommonAllPlayers "2023-24"].
Proof.
  unfold Benched.main.
  rewrite (main_without_rostered_players Benched.all_players_table
             Scenario.shot_chart_table Scenario.mkdir_parents
             Scenario.write_parquet Scenario.script_file (Some "2023-24")
             "2023-24"
             [ {| PERSON_ID := 1; DISPLAY_FIRST_LAST := "A"; ROSTERSTATUS := 0 |};
               {| PERSON_ID := 2; DISPLAY_FIRST_LAST := "B"; ROSTERSTATUS := 2 |} ]
             eq_refl eq_refl).
  - split; reflexivity.
  - intros row [<- | [<- | []]]; discriminate.
Defined.

Lemma output_file_stays_in_data_raw_2024_25 :
  ~ In "/"%char (list_ascii_of_string "nba_3pt_2024_25.parquet") /\
  ~ In "-"%char (list_ascii_of_string "nba_3pt_2024_25.parquet") /\
  parts (output_path_for Scenario.script_file "2024-25")
  = ["repo"; "data"; "raw"; "nba_3pt_2024_25.parquet"] /\
  parent (output_path_for Scenario.script_file "2024-25")
  = {| anchor := "/"; parts := ["repo"; "data"; "raw"] |}.
Proof.
  apply (output_file_stays_in_data_raw Scenario.script_file "2024-25").
  reflexivity.
Defined.
